(** * S3 data access of the text-to-SQL chatbot: a shallow embedding

    The development follows [src/app/src/models/s3_data_access.py], class
    [S3DataAccess]:

    - [PyStr]   the [str] methods the class calls ([strip], [lower],
                [split], [replace], [startswith], [endswith], [in], [int]);
    - [PyDate]  [datetime] values, [datetime(y, m, d)] and [+ timedelta(days=1)];
    - [Frame]   [pandas.DataFrame] values, [pd.concat], [df[columns]],
                [isna], [iloc[0]];
    - [Py]      a state-and-exception monad for [try]/[except] code;
    - [S3]      [get_available_date_range] and [get_data_for_date_range];
    - [Schema]  [get_schema_from_data];
    - [Query]   [execute_query];
    - [Sample]  [get_sample_data];
    - [Load]    what a load lists, fetches and reads.

    Around the class: [LLM] has [get_provider] and [_extract_sql] of
    [src/app/src/models/llm_provider.py], and [Api] the handlers [config],
    [available_dates] and [query] of [src/app/src/routes/api.py].

    A Python [str] is a Rocq [string] whose characters stand for the code
    points 0..255; everything the class does with text is defined on that
    range. *)

From Stdlib Require Import ZArith Ascii String DecimalString DecimalZ DecimalPos
  DecimalN.
From stdpp Require Import base tactics option list gmap strings.

Local Open Scope string_scope.
Local Open Scope list_scope.
Local Open Scope Z_scope.

(** ** Python [str] methods *)

Module PyStr.

(** [len(s)] *)
Definition len (s : string) : nat := String.length s.

(** Code point of a character. *)
Definition ord (c : ascii) : N := N_of_ascii c.

(** [c.isspace()]: TAB..CR, FS..US, SPACE, NEL and NBSP. *)
Definition isspace (c : ascii) : bool :=
  let n := ord c in
  ((9 <=? n) && (n <=? 13) || (28 <=? n) && (n <=? 32)
   || (n =? 133) || (n =? 160))%N.

(** [c.isupper()]: A..Z and the Latin-1 capitals (U+00C0..U+00DE but U+00D7). *)
Definition isupper (c : ascii) : bool :=
  let n := ord c in
  ((65 <=? n) && (n <=? 90)
   || (192 <=? n) && (n <=? 222) && negb (n =? 215))%N.

(** [c.lower()] *)
Definition tolower (c : ascii) : ascii :=
  if isupper c then ascii_of_N (ord c + 32) else c.

(** [s.lower()] *)
Fixpoint lower (s : string) : string :=
  match s with
  | EmptyString => EmptyString
  | String c s' => String (tolower c) (lower s')
  end.

(** [s.lstrip()] *)
Fixpoint lstrip (s : string) : string :=
  match s with
  | EmptyString => EmptyString
  | String c s' => if isspace c then lstrip s' else s
  end.

(** [s.rstrip()] *)
Fixpoint rstrip (s : string) : string :=
  match s with
  | EmptyString => EmptyString
  | String c s' =>
      match rstrip s' with
      | EmptyString => if isspace c then EmptyString else String c EmptyString
      | r => String c r
      end
  end.

(** [s.strip()] *)
Definition strip (s : string) : string := rstrip (lstrip s).

(** [s.startswith(p)] *)
Fixpoint startswith (p s : string) : bool :=
  match p, s with
  | EmptyString, _ => true
  | String a p', String b s' => if Ascii.eqb a b then startswith p' s' else false
  | String _ _, EmptyString => false
  end.

(** [s[n:]] *)
Fixpoint drop_chars (n : nat) (s : string) : string :=
  match n, s with
  | O, _ => s
  | S n', String _ s' => drop_chars n' s'
  | S _, EmptyString => EmptyString
  end.

(** [s.endswith(suffix)] *)
Definition endswith (suffix s : string) : bool :=
  (len suffix <=? len s)%nat
  && String.eqb (drop_chars (len s - len suffix) s) suffix.

(** [s.partition(sep)] for a non-empty [sep]: the text before and after the
    leftmost occurrence of [sep], or [None] when [sep] does not occur. *)
Fixpoint partition (sep s : string) : option (string * string) :=
  if startswith sep s then Some (EmptyString, drop_chars (len sep) s)
  else match s with
       | EmptyString => None
       | String c s' =>
           match partition sep s' with
           | Some (a, b) => Some (String c a, b)
           | None => None
           end
       end.

(** [sep in s] *)
Definition contains (sep s : string) : bool :=
  match partition sep s with Some _ => true | None => false end.

(** [s.split(sep)] for a non-empty [sep]: cut at the occurrences of [sep],
    found from the left and not overlapping.  Every cut consumes at least
    one character, so [len s] rounds are enough ([split_unfold]). *)
Fixpoint split_rounds (n : nat) (sep s : string) : list string :=
  match n with
  | O => [s]
  | S n' =>
      match partition sep s with
      | None => [s]
      | Some (a, b) => a :: split_rounds n' sep b
      end
  end.

Definition split (sep s : string) : list string := split_rounds (len s) sep s.

(** [s.replace(old, new)] for a non-empty [old]. *)
Fixpoint replace_rounds (n : nat) (old new s : string) : string :=
  match n with
  | O => s
  | S n' =>
      match partition old s with
      | None => s
      | Some (a, b) => a +:+ new +:+ replace_rounds n' old new b
      end
  end.

Definition replace (old new s : string) : string :=
  replace_rounds (len s) old new s.

(** [sep.join(parts)] *)
Definition join (sep : string) (parts : list string) : string :=
  String.concat sep parts.

(** Value of a decimal digit [0]..[9]. *)
Definition digit_value (c : ascii) : option Z :=
  let n := ord c in
  if ((48 <=? n) && (n <=? 57))%N then Some (Z.of_N n - 48) else None.

(** The digits of an [int] literal: one or more decimal digits, single
    underscores allowed between two digits.  [after_digit] tells whether the
    previous character was a digit. *)
Fixpoint int_digits (acc : Z) (after_digit : bool) (s : string) : option Z :=
  match s with
  | EmptyString => if after_digit then Some acc else None
  | String c s' =>
      match digit_value c with
      | Some d => int_digits (10 * acc + d) true s'
      | None =>
          if Ascii.eqb c "_" && after_digit then int_digits acc false s'
          else None
      end
  end.

(** [int(s)]: surrounding whitespace, an optional sign, then the digits;
    [None] stands for [ValueError]. *)
Definition int_of_str (s : string) : option Z :=
  match strip s with
  | String "-" r => Z.opp <$> int_digits 0 false r
  | String "+" r => int_digits 0 false r
  | t => int_digits 0 false t
  end.

(** [str(n)] for an [int]. *)
Definition str_of_int (n : Z) : string := NilZero.string_of_int (Z.to_int n).

(** [f"{n:02d}"] *)
Definition format_02d (n : Z) : string :=
  let s := str_of_int n in
  if (len s <? 2)%nat then "0" +:+ s else s.

(** [c.upper()]: a..z and the Latin-1 small letters go to their capitals,
    U+00DF to [SS].  The capitals of U+00B5 and U+00FF lie beyond the code
    points kept here; these two are left as they are, which a comparison of
    the result with ASCII letters cannot tell. *)
Definition upper_char (c : ascii) : string :=
  let n := ord c in
  if ((97 <=? n) && (n <=? 122)
      || (224 <=? n) && (n <=? 254) && negb (n =? 247))%N
  then String (ascii_of_N (n - 32)) EmptyString
  else if (n =? 223)%N then "SS"
  else String c EmptyString.

(** [s.upper()] *)
Fixpoint upper (s : string) : string :=
  match s with
  | EmptyString => EmptyString
  | String c s' => upper_char c +:+ upper s'
  end.


(** [sub] occurs in [s] as a run of consecutive characters. *)
Definition substring_of (sub s : string) : Prop :=
  exists a b : string, s = a +:+ sub +:+ b.

End PyStr.

(** ** Exceptions *)

(** The exception classes that occur.  [LibraryError] stands for whatever the
    S3 client, [gzip], the CSV reader or the expression evaluator of pandas
    raise; every handler that can see one is [except Exception]. *)
Inductive exn : Type :=
  | IndexError
  | ValueError
  | OverflowError
  | KeyError (missing : list string)
  | LibraryError (cls msg : string).

(** Outcome of an expression that may raise. *)
Definition result (A : Type) : Type := (exn + A)%type.

(** ** [datetime] *)

Module PyDate.

(** A [datetime] is kept as its proleptic Gregorian ordinal
    ([toordinal()], day 1 is 0001-01-01) and the microseconds since
    midnight; [year], [month] and [day] are read back with [ord2ymd]. *)
Record datetime : Type := mkDatetime { ordinal : Z; micros : Z }.

#[global] Instance datetime_eq_dec : EqDecision datetime.
Proof. solve_decision. Defined.

Definition MAXORDINAL : Z := 3652059.
Definition DAY_US : Z := 86400000000.

Definition is_leap (year : Z) : bool :=
  (year mod 4 =? 0) && (negb (year mod 100 =? 0) || (year mod 400 =? 0)).

Definition days_before_year (year : Z) : Z :=
  let y := year - 1 in y * 365 + y / 4 - y / 100 + y / 400.

Definition DAYS_IN_MONTH (month : Z) : Z :=
  match month with
  | 1 => 31 | 2 => 28 | 3 => 31 | 4 => 30 | 5 => 31 | 6 => 30
  | 7 => 31 | 8 => 31 | 9 => 30 | 10 => 31 | 11 => 30 | 12 => 31
  | _ => -1
  end.

Definition DAYS_BEFORE_MONTH (month : Z) : Z :=
  match month with
  | 1 => 0 | 2 => 31 | 3 => 59 | 4 => 90 | 5 => 120 | 6 => 151
  | 7 => 181 | 8 => 212 | 9 => 243 | 10 => 273 | 11 => 304 | 12 => 334
  | _ => -1
  end.

Definition days_in_month (year month : Z) : Z :=
  if (month =? 2) && is_leap year then 29 else DAYS_IN_MONTH month.

Definition days_before_month (year month : Z) : Z :=
  DAYS_BEFORE_MONTH month + (if (2 <? month) && is_leap year then 1 else 0).

Definition ymd2ord (year month day : Z) : Z :=
  days_before_year year + days_before_month year month + day.

Definition DI400Y : Z := 146097.
Definition DI100Y : Z := 36524.
Definition DI4Y : Z := 1461.

Definition ord2ymd (n : Z) : Z * Z * Z :=
  let n := n - 1 in
  let n400 := n / DI400Y in
  let n := n mod DI400Y in
  let year := n400 * 400 + 1 in
  let n100 := n / DI100Y in
  let n := n mod DI100Y in
  let n4 := n / DI4Y in
  let n := n mod DI4Y in
  let n1 := n / 365 in
  let n := n mod 365 in
  let year := year + n100 * 100 + n4 * 4 + n1 in
  if (n1 =? 4) || (n100 =? 4) then (year - 1, 12, 31)
  else
    let leapyear := (n1 =? 3) && (negb (n4 =? 24) || (n100 =? 3)) in
    let month := Z.shiftr (n + 50) 5 in
    let preceding :=
      DAYS_BEFORE_MONTH month + (if (2 <? month) && leapyear then 1 else 0) in
    if n <? preceding then
      let month := month - 1 in
      let preceding :=
        preceding
        - (DAYS_IN_MONTH month + (if (month =? 2) && leapyear then 1 else 0)) in
      (year, month, n - preceding + 1)
    else (year, month, n - preceding + 1).

Definition year (d : datetime) : Z := fst (fst (ord2ymd (ordinal d))).
Definition month (d : datetime) : Z := snd (fst (ord2ymd (ordinal d))).
Definition day (d : datetime) : Z := snd (ord2ymd (ordinal d)).

(** A value fits the C [int] that the constructor reads its arguments into. *)
Definition fits_c_int (v : Z) : bool := (-2147483648 <=? v) && (v <=? 2147483647).

(** [datetime(year, month, day)] *)
Definition datetime_ymd (y m d : Z) : result datetime :=
  if negb (fits_c_int y && fits_c_int m && fits_c_int d) then inl OverflowError
  else if negb ((1 <=? y) && (y <=? 9999)) then inl ValueError
  else if negb ((1 <=? m) && (m <=? 12)) then inl ValueError
  else if negb ((1 <=? d) && (d <=? days_in_month y m)) then inl ValueError
  else inr (mkDatetime (ymd2ord y m d) 0).

(** [a <= b] and [a < b] *)
Definition le (a b : datetime) : bool :=
  (ordinal a <? ordinal b) || ((ordinal a =? ordinal b) && (micros a <=? micros b)).

Definition lt (a b : datetime) : bool :=
  (ordinal a <? ordinal b) || ((ordinal a =? ordinal b) && (micros a <? micros b)).

(** [d + timedelta(days=1)] *)
Definition add_day (d : datetime) : result datetime :=
  if (1 <=? ordinal d + 1) && (ordinal d + 1 <=? MAXORDINAL)
  then inr (mkDatetime (ordinal d + 1) (micros d))
  else inl OverflowError.

(** [(b - a).days] *)
Definition delta_days (a b : datetime) : Z :=
  ((ordinal b * DAY_US + micros b) - (ordinal a * DAY_US + micros a)) / DAY_US.

(** The values a [datetime] takes: 0001-01-01 to 9999-12-31, and a time of
    day. *)
Definition valid (d : datetime) : Prop :=
  1 <= ordinal d <= MAXORDINAL /\ 0 <= micros d < DAY_US.

(** [d + timedelta(days=k)] within range. *)
Definition plus_days (d : datetime) (k : Z) : datetime :=
  mkDatetime (ordinal d + k) (micros d).


(** [min(dates)] and [max(dates)] of a non-empty list [d :: ds]. *)
Definition min_date (d : datetime) (ds : list datetime) : datetime :=
  fold_left (fun m x => if lt x m then x else m) ds d.

Definition max_date (d : datetime) (ds : list datetime) : datetime :=
  fold_left (fun m x => if lt m x then x else m) ds d.

End PyDate.

(** ** [pandas.DataFrame] *)

Module Frame.

Section Frames.

(** [V] is the type of the scalars a cell can hold.  A missing cell ([NaN],
    [None]) is [None]; [isna] is true of exactly those. *)
Context {V : Type}.

Definition cell : Type := option V.

(** A column: its label, the name of its dtype, its values from the first
    row down. *)
Record Column : Type := mkColumn {
  col_name : string;
  col_dtype : string;
  col_values : list cell
}.

(** A frame: the length of its index and its columns, left to right.  Row
    labels are not kept: the class only builds frames with
    [ignore_index=True] and never reads a label. *)
Record DataFrame : Type := mkFrame {
  nrows : nat;
  columns : list Column
}.

(** Every column has one value per row, and labels are not repeated (as in
    every frame [read_csv] and [concat] build). *)
Definition wf (df : DataFrame) : Prop :=
  Forall (fun c => length (col_values c) = nrows df) (columns df)
  /\ NoDup (map col_name (columns df)).

(** [pd.DataFrame()] *)
Definition empty_frame : DataFrame := mkFrame 0 [].

(** [df.empty]: some axis has length 0. *)
Definition is_empty (df : DataFrame) : bool :=
  (nrows df =? 0)%nat || (length (columns df) =? 0)%nat.

(** [list(df.columns)] *)
Definition labels (df : DataFrame) : list string := map col_name (columns df).

(** [label in df.columns] *)
Definition has_label (df : DataFrame) (label : string) : bool :=
  bool_decide (label ∈ labels df).

(** [df[label]] for a label that occurs once. *)
Definition getitem (df : DataFrame) (label : string) : option Column :=
  find (fun c => String.eqb (col_name c) label) (columns df).

(** [Index.unique()]: first occurrences, in order. *)
Fixpoint unique (seen l : list string) : list string :=
  match l with
  | [] => []
  | x :: l' =>
      if bool_decide (x ∈ seen) then unique seen l'
      else x :: unique (x :: seen) l'
  end.

(** [df[keys]] for a list of labels: the columns with these labels, in the
    order of [keys]; [KeyError] names the labels that are not columns (all of
    [keys] when none is, else each missing one once). *)
Definition getitem_list (df : DataFrame) (keys : list string) : result DataFrame :=
  let missing := filter (fun k => ¬ k ∈ labels df) keys in
  match missing with
  | [] =>
      inr (mkFrame (nrows df)
             (flat_map
                (fun k => filter (fun c => col_name c = k) (columns df))
                keys))
  | _ :: _ => inl (KeyError (unique [] missing))
  end.

(** [df.copy()] *)
Definition copy (df : DataFrame) : DataFrame := df.

(** [s.isna().all()] *)
Definition all_na (values : list cell) : bool :=
  forallb (fun v => match v with None => true | Some _ => false end) values.

(** [s.iloc[0]]; a frame that is not empty has a first row. *)
Definition iloc0 (values : list cell) : cell :=
  match values with
  | v :: _ => v
  | [] => None
  end.

(** Rows [i], [i+1], ... of a column that [keep] selects. *)
Fixpoint select_from (keep : nat -> bool) (i : nat) (values : list cell) : list cell :=
  match values with
  | [] => []
  | v :: values' =>
      if keep i then v :: select_from keep (S i) values'
      else select_from keep (S i) values'
  end.

(** [df.loc[mask]]: the rows where the boolean mask holds, order kept. *)
Definition select_rows (keep : nat -> bool) (df : DataFrame) : DataFrame :=
  mkFrame (length (filter (fun i => keep i = true) (seq 0 (nrows df))))
          (map (fun c => mkColumn (col_name c) (col_dtype c)
                           (select_from keep 0 (col_values c)))
               (columns df)).

(** The dtype [concat] gives a column, from the dtype the column has in each
    input frame ([None] where the frame lacks it).  The rule is pandas' own
    and no property below depends on it. *)
Context (common_dtype : list (option string) -> string).

(** The values a frame contributes to column [label] of a concatenation: its
    own, or one missing value per row. *)
Definition values_or_na (label : string) (df : DataFrame) : list cell :=
  match getitem df label with
  | Some c => col_values c
  | None => replicate (nrows df) None
  end.

(** [pd.concat(frames, ignore_index=True)]: rows stacked in list order;
    columns are the union of the frames' labels in order of first
    appearance (outer join, unsorted). *)
Definition concat (frames : list DataFrame) : DataFrame :=
  mkFrame
    (sum_list (map nrows frames))
    (map (fun label =>
            mkColumn label
              (common_dtype (map (fun df => col_dtype <$> getitem df label) frames))
              (flat_map (values_or_na label) frames))
         (unique [] (flat_map labels frames))).

(** The value at row [i] of column [label]. *)
Definition at_ (df : DataFrame) (i : nat) (label : string) : option cell :=
  c ← getitem df label; col_values c !! i.

End Frames.

Arguments Column : clear implicits.
Arguments DataFrame : clear implicits.
Arguments cell : clear implicits.

End Frame.

(** ** Statements that raise and touch a state *)

Module Py.

(** A computation over a state [S] that returns an [A] or raises; the state
    it reached is kept either way. *)
Definition M (S A : Type) : Type := S -> result A * S.

Definition ret {S A} (a : A) : M S A := fun s => (inr a, s).

Definition raise {S A} (e : exn) : M S A := fun s => (inl e, s).

Definition lift {S A} (r : result A) : M S A := fun s => (r, s).

Definition bind {S A B} (m : M S A) (k : A -> M S B) : M S B :=
  fun s =>
    match m s with
    | (inr a, s') => k a s'
    | (inl e, s') => (inl e, s')
    end.

(** [try: body except Exception as e: handler] *)
Definition try_except {S A} (body : M S A) (handler : exn -> M S A) : M S A :=
  fun s =>
    match body s with
    | (inr a, s') => (inr a, s')
    | (inl e, s') => handler e s'
    end.

(** The same for an expression without effects. *)
Definition rbind {A B} (r : result A) (k : A -> result B) : result B :=
  match r with
  | inr a => k a
  | inl e => inl e
  end.

(** [l[i]] *)
Definition index {A} (l : list A) (i : nat) : result A :=
  match l !! i with
  | Some x => inr x
  | None => inl IndexError
  end.

(** [int(s)] *)
Definition int (s : string) : result Z :=
  match PyStr.int_of_str s with
  | Some n => inr n
  | None => inl ValueError
  end.

End Py.

Notation "'do' x <- c ; k" := (Py.bind c (fun x => k))
  (at level 10, x name, c at level 100, k at level 200, only parsing).
Notation "'do' ' pat <- c ; k" := (Py.bind c (fun x => match x with pat => k end))
  (at level 10, pat pattern, c at level 100, k at level 200, only parsing).
Notation "'let?' x := r 'in' k" := (Py.rbind r (fun x => k))
  (at level 10, x name, r at level 100, k at level 200, only parsing).

(** ** Partition catalogue and ingestion *)

Module S3.

Import PyStr PyDate Frame Py.

(** What a request leaves behind: the calls made on the S3 client, in order,
    and the lines printed. *)
Inductive event : Type :=
  | ListObjects (prefix : string)
  | GetObject (key : string)
  | Print (line : string).

Definition trace : Type := list event.


(** The lines printed, in order. *)
Definition printed (t : trace) : list string :=
  omap (fun ev => match ev with Print l => Some l | _ => None end) t.

Definition bytes : Type := list Byte.byte.

(** The object [self]: [self.base_path] and the bucket as [self.s3_client]
    shows it during one request.  [s3_list prefix] is the ['Contents'] keys
    of [list_objects_v2(Bucket=self.bucket_name, Prefix=prefix)], [None] when
    the response has no ['Contents']; [s3_get key] is
    [get_object(Bucket=self.bucket_name, Key=key)['Body'].read()].  Either
    may raise. *)
Record S3DataAccess : Type := mkS3DataAccess {
  base_path : string;
  s3_list : string -> result (option (list string));
  s3_get : string -> result bytes
}.

(** The library calls the class makes on file contents and exceptions:
    [gzip.GzipFile(fileobj=...).read()], [pd.read_csv], [str(e)], and the
    dtype rule of [pd.concat]. *)
Record Library (V : Type) : Type := mkLibrary {
  gunzip : bytes -> result bytes;
  read_csv : bytes -> result (DataFrame V);
  str_exn : exn -> string;
  common_dtype : list (option string) -> string
}.

Arguments gunzip {V}.
Arguments read_csv {V}.
Arguments str_exn {V}.
Arguments common_dtype {V}.

Section Client.

Context {V : Type}.
Context (self : S3DataAccess) (lib : Library V).

Definition list_objects_v2 (prefix : string) : M trace (option (list string)) :=
  fun t => (s3_list self prefix, t ++ [ListObjects prefix]).

Definition get_object (key : string) : M trace bytes :=
  fun t => (s3_get self key, t ++ [GetObject key]).

Definition print (line : string) : M trace unit :=
  fun t => (inr tt, t ++ [Print line]).

(** [int(part.split('=')[1])] *)
Definition partition_value (part : string) : result Z :=
  let? v := index (split "=" part) 1 in int v.

(** The body of the inner [try] of [get_available_date_range]. *)
Definition key_datetime (parts : list string) : result datetime :=
  let? year_part := index parts 1 in
  let? month_part := index parts 2 in
  let? day_part := index parts 3 in
  let? year := partition_value year_part in
  let? month := partition_value month_part in
  let? day := partition_value day_part in
  datetime_ymd year month day.

(** One round of the loop over ['Contents']: the date of the key, [None]
    when the key is skipped ([len(parts) < 4], or [IndexError] or
    [ValueError] in the inner [try]); any other exception leaves the loop. *)
Definition key_date (key : string) : result (option datetime) :=
  let parts := split "/" key in
  if (4 <=? length parts)%nat then
    match key_datetime parts with
    | inr d => inr (Some d)
    | inl IndexError => inr None
    | inl ValueError => inr None
    | inl e => inl e
    end
  else inr None.

Fixpoint collect_dates (keys : list string) (dates : list datetime)
  : result (list datetime) :=
  match keys with
  | [] => inr dates
  | key :: keys' =>
      let? d := key_date key in
      match d with
      | Some d => collect_dates keys' (dates ++ [d])
      | None => collect_dates keys' dates
      end
  end.

Definition get_available_date_range
  : M trace (option datetime * option datetime) :=
  try_except
    (do response <- list_objects_v2 (base_path self);
     match response with
     | None => ret (None, None)
     | Some keys =>
         do dates <- lift (collect_dates keys []);
         match dates with
         | [] => ret (None, None)
         | d :: ds => ret (Some (min_date d ds), Some (max_date d ds))
         end
     end)
    (fun e =>
       do _ <- print ("Error getting available date range: " +:+ str_exn lib e);
       ret (None, None)).

(** The [while current_date <= end_date] loop.  [fuel] bounds the rounds;
    [None] means it ran out, which [date_range] never lets happen
    ([date_loop_enough]). *)
Fixpoint date_loop (fuel : nat) (current_date end_date : datetime)
  (date_list : list datetime) : option (result (list datetime)) :=
  if le current_date end_date then
    match fuel with
    | O => None
    | S fuel' =>
        match add_day current_date with
        | inr next => date_loop fuel' next end_date (date_list ++ [current_date])
        | inl e => Some (inl e)
        end
    end
  else Some (inr date_list).

Definition date_fuel (start_date end_date : datetime) : nat :=
  Z.to_nat (ordinal end_date - ordinal start_date + 1).

Definition date_range (start_date end_date : datetime) : result (list datetime) :=
  match date_loop (date_fuel start_date end_date) start_date end_date [] with
  | Some r => r
  | None => inr []
  end.

(** [f"{self.base_path}year={year}/month={month:02d}/day={day:02d}/"] *)
Definition date_prefix (date : datetime) : string :=
  base_path self +:+ "year=" +:+ str_of_int (year date)
  +:+ "/month=" +:+ format_02d (month date)
  +:+ "/day=" +:+ format_02d (day date) +:+ "/".

(** [limit and file_count >= limit] *)
Definition limit_reached (limit : option Z) (file_count : Z) : bool :=
  match limit with
  | Some n => negb (n =? 0) && (n <=? file_count)
  | None => false
  end.

(** Fetch, decompress and parse one file. *)
Definition read_object (key : string) : M trace (DataFrame V) :=
  do file_content <- get_object key;
  do raw <- lift (gunzip lib file_content);
  lift (read_csv lib raw).

(** The loop over the objects of one date; it ends at the end of the listing
    or at the [break]. *)
Fixpoint process_objects (limit : option Z) (keys : list string)
  (all_data : list (DataFrame V)) (file_count : Z)
  : M trace (list (DataFrame V) * Z) :=
  match keys with
  | [] => ret (all_data, file_count)
  | key :: keys' =>
      if endswith ".csv.gz" key then
        do df <- read_object key;
        let all_data := all_data ++ [df] in
        let file_count := file_count + 1 in
        if limit_reached limit file_count then ret (all_data, file_count)
        else process_objects limit keys' all_data file_count
      else process_objects limit keys' all_data file_count
  end.

(** The loop over [date_list]. *)
Fixpoint process_dates (limit : option Z) (date_list : list datetime)
  (all_data : list (DataFrame V)) (file_count : Z)
  : M trace (list (DataFrame V) * Z) :=
  match date_list with
  | [] => ret (all_data, file_count)
  | date :: date_list' =>
      do response <- list_objects_v2 (date_prefix date);
      do '(all_data, file_count) <-
        process_objects limit (default [] response) all_data file_count;
      if limit_reached limit file_count then ret (all_data, file_count)
      else process_dates limit date_list' all_data file_count
  end.

Definition get_data_for_date_range (start_date end_date : datetime)
  (limit : option Z) : M trace (DataFrame V) :=
  try_except
    (do date_list <- lift (date_range start_date end_date);
     do '(all_data, _) <- process_dates limit date_list [] 0;
     match all_data with
     | [] => ret empty_frame
     | _ :: _ => ret (concat (common_dtype lib) all_data)
     end)
    (fun e =>
       do _ <- print ("Error getting data for date range: " +:+ str_exn lib e);
       ret empty_frame).

(** What fetching, decompressing and parsing the file under [key] comes
    to ([read_object_run]). *)
Definition fetch_frame (key : string) : result (DataFrame V) :=
  let? file_content := s3_get self key in
  let? raw := gunzip lib file_content in
  read_csv lib raw.

(** The file under [key] can be fetched, decompressed and parsed. *)
Definition readable (key : string) : Prop :=
  exists df, fetch_frame key = inr df.

(** Every listing and every file of the dates [dates] comes back. *)
Definition all_served (dates : list datetime) : Prop :=
  forall d, d ∈ dates ->
    exists response,
      s3_list self (date_prefix d) = inr response
      /\ forall key, key ∈ default [] response ->
           endswith ".csv.gz" key = true -> readable key.

End Client.

(** [limit] is [None] or [0]: no file limit is in force. *)
Definition no_limit (limit : option Z) : Prop := limit = None \/ limit = Some 0.

(** A bucket holding [objects] (key and content, in listing order): a
    listing returns the keys that start with the prefix, and has no
    ['Contents'] when there is none. *)
Definition bucket_of (base : string) (objects : list (string * bytes))
  : S3DataAccess :=
  mkS3DataAccess base
    (fun prefix =>
       match filter (fun k => startswith prefix k = true) (map fst objects) with
       | [] => inr None
       | keys => inr (Some keys)
       end)
    (fun key =>
       match find (fun o => String.eqb (fst o) key) objects with
       | Some o => inr (snd o)
       | None => inl (LibraryError "NoSuchKey" "The specified key does not exist.")
       end).

(** A bucket that cannot be reached. *)
Definition bucket_down (base : string) : S3DataAccess :=
  mkS3DataAccess base
    (fun _ => inl (LibraryError "EndpointConnectionError" "Could not connect"))
    (fun _ => inl (LibraryError "EndpointConnectionError" "Could not connect")).

End S3.

(** ** Schema description *)

Module Schema.

Import PyStr Frame.

(** The line break ["\n"]. *)
Definition newline : string := String (ascii_of_nat 10) EmptyString.

Section Describe.

Context {V : Type}.

(** [f"{sample}"] for a value read from a column (a missing one prints as
    [nan]). *)
Context (str_cell : cell V -> string).

(** What [sample] is bound to: a value of the column or the string ["NULL"]. *)
Inductive sample : Type :=
  | Example (v : cell V)
  | Null.

(** [df[column].iloc[0] if not df[column].isna().all() else "NULL"] *)
Definition sample_of (values : list (cell V)) : sample :=
  if negb (all_na values) then Example (iloc0 values) else Null.

Definition str_sample (s : sample) : string :=
  match s with
  | Example v => str_cell v
  | Null => "NULL"
  end.

(** One round of [for column in df.columns]: label, dtype and sample. *)
Definition describe (df : DataFrame V) (column : string)
  : option (string * string * sample) :=
  c ← getitem df column;
  Some (column, col_dtype c, sample_of (col_values c)).

(** The rounds of the loop, in order; every label of [df.columns] is
    found ([schema_entries_length]). *)
Definition schema_entries (df : DataFrame V) : list (string * string * sample) :=
  omap (describe df) (labels df).

(** [f"- {column} ({dtype}): Example value: {sample}"] *)
Definition schema_line (entry : string * string * sample) : string :=
  let '(column, dtype, s) := entry in
  "- " +:+ column +:+ " (" +:+ dtype +:+ "): Example value: " +:+ str_sample s.

Definition get_schema_from_data (df : DataFrame V) : string :=
  if is_empty df then "No data available to generate schema."
  else join newline ("Table Schema:" :: map schema_line (schema_entries df)).

(** The first value of a column that is not missing. *)
Definition first_non_null (values : list (cell V)) : option V :=
  head (omap id values).

End Describe.

Arguments sample : clear implicits.
Arguments Null {V}.

End Schema.

(** ** Query execution *)

Module Query.

Import PyStr Frame Py.

(** References to frame objects. *)
Definition loc : Type := positive.

Section Engine.

Context {V : Type}.

(** [str(e)] *)
Context (str_exn : exn -> string).

(** [df.eval(expr)] of pandas for an expression that yields a boolean mask:
    the rows of [df] where [expr] holds, or the exception it raises. *)
Context (eval_mask : DataFrame V -> string -> result (nat -> bool)).

(** The frame objects alive, by reference.  Every reference the method
    holds is to a live object; reading any other one gives the empty frame. *)
Abbreviation heap := (gmap loc (DataFrame V)).

(** A new object. *)
Definition alloc (df : DataFrame V) : M heap loc :=
  fun h => let l := fresh (dom h) in (inr l, <[l := df]> h).

Definition read (l : loc) : M heap (DataFrame V) :=
  fun h => (inr (default empty_frame (h !! l)), h).

(** [pd.DataFrame()] *)
Definition new_frame : M heap loc := alloc empty_frame.

(** [df.copy()] *)
Definition df_copy (df : loc) : M heap loc :=
  do d <- read df;
  alloc (copy d).

(** [df[columns]] *)
Definition df_getitem (df : loc) (columns : list string) : M heap loc :=
  do d <- read df;
  do r <- lift (getitem_list d columns);
  alloc r.

(** [result.query(expr)] *)
Definition df_query (result : loc) (expr : string) : M heap loc :=
  do d <- read result;
  do keep <- lift (eval_mask d expr);
  alloc (select_rows keep d).

(** The statement that occurs in both branches:
    [if columns_str == '*': result = df.copy()]
    [else: columns = [c.strip() for c in columns_str.split(',')]; result = df[columns]] *)
Definition select_columns (df : loc) (columns_str : string) : M heap loc :=
  if String.eqb columns_str "*" then df_copy df
  else
    let columns := map strip (split "," columns_str) in
    df_getitem df columns.

Definition execute_query (df : loc) (query : string)
  : M heap (loc * option string) :=
  try_except
    (let query := strip query in
     if negb (startswith "select" (lower query)) then
       do r <- new_frame;
       ret (r, Some "Query must start with SELECT")
     else if contains "where" (lower query) then
       do select_part <- lift (index (split "where" (lower query)) 0);
       do where_part <- lift (index (split "where" (lower query)) 1);
       let columns_str := strip (replace "select" "" select_part) in
       do result <- select_columns df columns_str;
       do result <- df_query result where_part;
       ret (result, None)
     else
       let columns_str := strip (replace "select" "" (lower query)) in
       do result <- select_columns df columns_str;
       ret (result, None))
    (fun e =>
       do r <- new_frame;
       ret (r, Some ("Error executing query: " +:+ str_exn e))).

(** *** What the method extracts from the statement *)

(** The column list: [*] or the names asked for. *)
Inductive column_list : Type :=
  | Wildcard
  | Columns (names : list string).

Record parsed : Type := mkParsed {
  q_columns : column_list;
  q_filter : option string
}.

Definition column_list_of (columns_str : string) : column_list :=
  if String.eqb columns_str "*" then Wildcard
  else Columns (map strip (split "," columns_str)).

(** Column list and filter that [execute_query] works with, [None] when the
    statement is turned down for not starting with [select]
    ([execute_query_parse] shows that these are the ones). *)
Definition parse (query : string) : option parsed :=
  let query := strip query in
  if negb (startswith "select" (lower query)) then None
  else if contains "where" (lower query) then
    let pieces := split "where" (lower query) in
    Some (mkParsed
            (column_list_of (strip (replace "select" "" (nth 0 pieces ""))))
            (Some (nth 1 pieces "")))
  else
    Some (mkParsed
            (column_list_of (strip (replace "select" "" (lower query))))
            None).

(** Projection and filter for an extracted column list and filter. *)
Definition project (df : loc) (c : column_list) : M heap loc :=
  match c with
  | Wildcard => df_copy df
  | Columns names => df_getitem df names
  end.

Definition execute (df : loc) (q : parsed) : M heap (loc * option string) :=
  do result <- project df (q_columns q);
  match q_filter q with
  | Some where_part =>
      do result <- df_query result where_part;
      ret (result, None)
  | None => ret (result, None)
  end.

(** The [except Exception as e] clause of [execute_query]. *)
Definition on_error (e : exn) : M heap (loc * option string) :=
  do r <- new_frame;
  ret (r, Some ("Error executing query: " +:+ str_exn e)).

(** The frame a returned reference denotes. *)
Definition frame_at (h : heap) (r : loc) : DataFrame V :=
  default empty_frame (h !! r).

(** What [execute_query] returns when something was raised: a new empty
    frame and the message. *)
Definition error_outcome (e : exn) (h : heap)
  : result (loc * option string) * heap :=
  (inr (fresh (dom h), Some ("Error executing query: " +:+ str_exn e)),
   <[fresh (dom h) := empty_frame]> h).

End Engine.

End Query.

(** ** Sample data *)

Module Examples.

Import Frame.

(** A rendering of exceptions. *)
Definition str_exn (e : exn) : string :=
  match e with
  | IndexError => "list index out of range"
  | ValueError => "invalid value"
  | OverflowError => "value out of range"
  | KeyError missing => "[" +:+ String.concat ", " missing +:+ "] not in index"
  | LibraryError _ msg => msg
  end.

(** An evaluator that knows one expression, [amount > 8] over integer
    cells, and raises on any other. *)
Definition eval_mask (df : DataFrame Z) (expr : string) : result (nat -> bool) :=
  if String.eqb (PyStr.strip expr) "amount > 8" then
    match getitem df "amount" with
    | Some c =>
        inr (fun i => match col_values c !! i with
                      | Some (Some v) => 8 <? v
                      | _ => false
                      end)
    | None => inl (LibraryError "UndefinedVariableError" "name 'amount' is not defined")
    end
  else inl (LibraryError "SyntaxError" "invalid syntax").

(** Rows [(1, 10), (2, 20), (3, 5)] under [id] and [amount]. *)
Definition orders : DataFrame Z :=
  mkFrame 3 [mkColumn "id" "int64" [Some 1; Some 2; Some 3];
             mkColumn "amount" "int64" [Some 10; Some 20; Some 5]].

(** A frame whose labels have capitals. *)
Definition people : DataFrame Z :=
  mkFrame 2 [mkColumn "Name" "int64" [Some 7; Some 8];
             mkColumn "selected" "int64" [Some 1; Some 0]].

(** A column that starts with a missing value. *)
Definition gaps : DataFrame Z :=
  mkFrame 3 [mkColumn "x" "float64" [None; Some 5; Some 6];
             mkColumn "y" "float64" [None; None; None]].

(** [f"{sample}"] for integer cells. *)
Definition str_cell (v : cell Z) : string :=
  match v with
  | Some n => PyStr.str_of_int n
  | None => "nan"
  end.



(** Decompression: the content after the two magic bytes. *)
Definition gunzip (b : S3.bytes) : result S3.bytes :=
  match b with
  | Byte.x1f :: Byte.x8b :: rest => inr rest
  | _ => inl (LibraryError "BadGzipFile" "Not a gzipped file")
  end.

(** Parsing: one column [value] with one row per byte. *)
Definition read_csv (b : S3.bytes) : result (DataFrame Z) :=
  match b with
  | [] => inl (LibraryError "EmptyDataError" "No columns to parse from file")
  | _ :: _ =>
      inr (mkFrame (length b)
             [mkColumn "value" "int64"
                (map (fun x => Some (Z.of_N (Byte.to_N x))) b)])
  end.

(** 2024-01-02 and 2024-01-03, at midnight. *)
Definition jan2 : PyDate.datetime := PyDate.mkDatetime 738887 0.
Definition jan3 : PyDate.datetime := PyDate.mkDatetime 738888 0.

(** A good file. *)
Definition good_bytes : S3.bytes := [Byte.x1f; Byte.x8b; Byte.x07; Byte.x09].



(** Two days with one good file each. *)
Definition bucket_two_days : S3.S3DataAccess :=
  S3.bucket_of "csv-data/"
    [("csv-data/year=2024/month=01/day=02/a.csv.gz", good_bytes);
     ("csv-data/year=2024/month=01/day=03/a.csv.gz", good_bytes)].

(** A bucket without objects. *)
Definition bucket_empty : S3.S3DataAccess := S3.bucket_of "csv-data/" [].

(** A bucket whose only key is not under a date. *)
Definition bucket_stray : S3.S3DataAccess :=
  S3.bucket_of "csv-data/" [("csv-data/readme.txt", [])].

(** A dtype rule: the dtype all inputs share, else [object]. *)
Definition common_dtype (dtypes : list (option string)) : string :=
  match dtypes with
  | Some d :: rest =>
      if forallb (fun o => match o with
                           | Some d' => String.eqb d d'
                           | None => false
                           end) rest
      then d else "object"
  | _ => "object"
  end.

Definition lib : S3.Library Z :=
  S3.mkLibrary Z gunzip read_csv str_exn common_dtype.

End Examples.

(** ** Sample rows *)

Module Sample.

Import PyStr Frame.

Section Head.

Context {V : Type}.

(** The [stop] of the slice [[:n]] over [len] items: [n] items, [len] when
    there are fewer; for a negative [n] all but the last [-n]. *)
Definition slice_stop (n : Z) (len : nat) : nat :=
  if 0 <=? n then Nat.min (Z.to_nat n) len
  else Z.to_nat (Z.of_nat len + n).

(** [df.head(n)], that is [df.iloc[:n]] *)
Definition head (n : Z) (df : DataFrame V) : DataFrame V :=
  let k := slice_stop n (nrows df) in
  mkFrame k
    (map (fun c => mkColumn (col_name c) (col_dtype c) (take k (col_values c)))
         (columns df)).

(** [DataFrame.to_string()] *)
Context (to_string : DataFrame V -> string).

Definition get_sample_data (df : DataFrame V) (rows : Z) : string :=
  if is_empty df then "No data available for sampling."
  else
    let sample := head rows df in
    to_string sample.

End Head.

End Sample.

(** ** Language-model providers *)

Module LLM.

Import PyStr Py.

(** The three subclasses of [LLMProvider]. *)
Inductive provider_class : Type :=
  | BedrockClaudeProvider
  | OpenAIProvider
  | GeminiProvider.

(** A provider object as [get_provider] builds it: its class and the
    arguments given to the constructor. *)
Record provider : Type := mkProvider {
  p_class : provider_class;
  p_api_key : option string;
  p_model : string
}.

(** [model or default]: [None] and the empty string give the default. *)
Definition or_default (model : option string) (default : string) : string :=
  match model with
  | Some (String c m) => String c m
  | _ => default
  end.

Definition get_provider (provider_name : string) (api_key : option string)
  (model : option string) : result provider :=
  if String.eqb (lower provider_name) "bedrock" then
    let model := or_default model "anthropic.claude-3-sonnet-20240229-v1:0" in
    inr (mkProvider BedrockClaudeProvider api_key model)
  else if String.eqb (lower provider_name) "openai" then
    let model := or_default model "gpt-4o-mini" in
    inr (mkProvider OpenAIProvider api_key model)
  else if String.eqb (lower provider_name) "gemini" then
    let model := or_default model "gemini-1.5-pro" in
    inr (mkProvider GeminiProvider api_key model)
  else inl ValueError.

(** The line break ["\n"]. *)
Definition newline : string := String (ascii_of_nat 10) EmptyString.

(** The two fences of [r"```sql\n(.*?)\n```"]. *)
Definition fence_open : string := "```sql" +:+ newline.
Definition fence_close : string := newline +:+ "```".

(** [re.search(r"```sql\n(.*?)\n```", response, re.DOTALL)], group 1: the
    text between the leftmost opening fence and the first closing fence
    after it; [None] when the pattern does not match. *)
Definition search_sql_block (response : string) : option string :=
  match partition fence_open response with
  | Some (_, after) =>
      match partition fence_close after with
      | Some (body, _) => Some body
      | None => None
      end
  | None => None
  end.

(** [line.upper().startswith('SELECT') or line.upper().startswith('WITH')] *)
Definition starts_sql (line : string) : bool :=
  startswith "SELECT" (upper line) || startswith "WITH" (upper line).

(** The [for line in response.split('\n')] loop, from a state [capture],
    [sql_lines]; it returns [sql_lines] at the [break] or at the end. *)
Fixpoint capture_lines (lines : list string) (capture : bool)
  (sql_lines : list string) : list string :=
  match lines with
  | [] => sql_lines
  | line :: lines' =>
      let line := strip line in
      let capture := if starts_sql line then true else capture in
      let sql_lines := if capture then sql_lines ++ [line] else sql_lines in
      if capture && endswith ";" line then sql_lines
      else capture_lines lines' capture sql_lines
  end.

(** [_extract_sql], the same in the three classes. *)
Definition _extract_sql (response : string) : string :=
  match search_sql_block response with
  | Some body => strip body
  | None =>
      let sql_lines := capture_lines (split newline response) false [] in
      match sql_lines with
      | [] => response
      | _ :: _ => join newline sql_lines
      end
  end.

(** No character of [s] is a backtick. *)
Fixpoint no_backtick (s : string) : bool :=
  match s with
  | EmptyString => true
  | String c s' => negb (Ascii.eqb c "`") && no_backtick s'
  end.

End LLM.

(** ** What a load reads *)

Module Load.

Import PyStr PyDate Frame Py S3.

(** The keys fetched, in order. *)
Definition fetched (t : trace) : list string :=
  omap (fun ev => match ev with GetObject k => Some k | _ => None end) t.

Section Client.

Context {V : Type}.
Context (self : S3DataAccess) (lib : Library V).

(** The keys listed under the prefix of [date], none when the listing
    raises or has no ['Contents']. *)
Definition listing (date : datetime) : list string :=
  match s3_list self (date_prefix self date) with
  | inr (Some keys) => keys
  | _ => []
  end.

(** The compressed CSV files of the dates [dates], by date and then in
    listing order. *)
Definition range_keys (dates : list datetime) : list string :=
  flat_map (fun d => filter (fun k => endswith ".csv.gz" k = true) (listing d))
           dates.

(** The frames of the keys that can be read. *)
Definition frames_of (keys : list string) : list (DataFrame V) :=
  omap (fun k => match fetch_frame self lib k with
                 | inr df => Some df
                 | inl _ => None
                 end) keys.


End Client.

End Load.

(** ** Auxiliary notions for dates and numerals *)

Module Calendar.

Import PyStr PyDate.

(** The month and the day of the month for the [n]-th day of a year
    (counted from [0]), as the last part of [ord2ymd] finds them. *)
Definition month_day (leapyear : bool) (n : Z) : Z * Z :=
  let month := Z.shiftr (n + 50) 5 in
  let preceding :=
    DAYS_BEFORE_MONTH month + (if (2 <? month) && leapyear then 1 else 0) in
  if n <? preceding then
    let month := month - 1 in
    let preceding :=
      preceding
      - (DAYS_IN_MONTH month + (if (month =? 2) && leapyear then 1 else 0)) in
    (month, n - preceding + 1)
  else (month, n - preceding + 1).

(** [month_day] gives a month, a day of that month, and the right day of the
    year. *)
Definition month_day_ok (leapyear : bool) (n : Z) : bool :=
  let '(m, d) := month_day leapyear n in
  (1 <=? m) && (m <=? 12) && (1 <=? d)
  && (d <=? DAYS_IN_MONTH m + (if (m =? 2) && leapyear then 1 else 0))
  && (DAYS_BEFORE_MONTH m + (if (2 <? m) && leapyear then 1 else 0) + d
      =? n + 1).

(** Every character of [s] is a decimal digit. *)
Fixpoint all_digits (s : string) : bool :=
  match s with
  | EmptyString => true
  | String c s' =>
      match digit_value c with
      | Some _ => all_digits s'
      | None => false
      end
  end.

(** The number that the digits [u] continue from [acc]. *)
Fixpoint uint_value (acc : Z) (u : Decimal.uint) : Z :=
  match u with
  | Decimal.Nil => acc
  | Decimal.D0 l => uint_value (10 * acc + 0) l
  | Decimal.D1 l => uint_value (10 * acc + 1) l
  | Decimal.D2 l => uint_value (10 * acc + 2) l
  | Decimal.D3 l => uint_value (10 * acc + 3) l
  | Decimal.D4 l => uint_value (10 * acc + 4) l
  | Decimal.D5 l => uint_value (10 * acc + 5) l
  | Decimal.D6 l => uint_value (10 * acc + 6) l
  | Decimal.D7 l => uint_value (10 * acc + 7) l
  | Decimal.D8 l => uint_value (10 * acc + 8) l
  | Decimal.D9 l => uint_value (10 * acc + 9) l
  end.

End Calendar.

(** ** The routes of the API *)

(** [src/app/src/routes/api.py]: the handlers [config], [available_dates]
    and [query].  A request body is the JSON object that [request.json]
    gives, with the fields a handler reads; every field that is present
    holds a JSON string ([api_keys] an object of strings).  A response is
    what the handler passes to [jsonify] with its status code; an exception
    that leaves a handler is the result [inl]. *)

Module Api.

Import PyStr PyDate Frame Py S3 LLM.

(** The dictionary [CONFIG]. *)
Record Config : Type := mkConfig {
  default_provider : string;
  default_model : string;
  bucket_name : option string;
  api_keys : gmap string string
}.

(** [CONFIG] as the module defines it. *)
Definition initial_config : Config :=
  mkConfig "bedrock" "anthropic.claude-3-sonnet-20240229-v1:0" None ∅.

(** The body of a [POST] to [/config]. *)
Record ConfigRequest : Type := mkConfigRequest {
  c_provider : option string;
  c_model : option string;
  c_bucket_name : option string;
  c_api_keys : option (gmap string string)
}.

(** The body of a [POST] to [/query]. *)
Record QueryRequest : Type := mkQueryRequest {
  q_question : option string;
  q_provider : option string;
  q_model : option string;
  q_start_date : option string;
  q_end_date : option string
}.

Inductive response : Type :=
  | Error (status : Z) (message : string)
  | ConfigSaved (config : Config)
  | ConfigShown (config : Config)
  | Dates (start_date end_date : string)
  | Answer (question sql_query results explanation : string).

(** The truth value of a string or [None]. *)
Definition truthy (s : option string) : bool :=
  match s with
  | Some (String _ _) => true
  | _ => false
  end.

(** [d.update(other)]: the entries of [other], then those of [d] under the
    keys that [other] lacks. *)
Definition update (d other : gmap string string) : gmap string string :=
  other ∪ d.

(** [config()] on a [POST]: the new [CONFIG] and the response. *)
Definition config_post (CONFIG : Config) (data : ConfigRequest)
  : Config * response :=
  let CONFIG :=
    match c_provider data with
    | Some p => mkConfig p (default_model CONFIG) (bucket_name CONFIG)
                  (api_keys CONFIG)
    | None => CONFIG
    end in
  let CONFIG :=
    match c_model data with
    | Some m => mkConfig (default_provider CONFIG) m (bucket_name CONFIG)
                  (api_keys CONFIG)
    | None => CONFIG
    end in
  let CONFIG :=
    match c_bucket_name data with
    | Some b => mkConfig (default_provider CONFIG) (default_model CONFIG)
                  (Some b) (api_keys CONFIG)
    | None => CONFIG
    end in
  let CONFIG :=
    match c_api_keys data with
    | Some keys => mkConfig (default_provider CONFIG) (default_model CONFIG)
                     (bucket_name CONFIG) (update (api_keys CONFIG) keys)
    | None => CONFIG
    end in
  (CONFIG, ConfigSaved CONFIG).

(** [config()] on a [GET]; [CONFIG] stays as it is. *)
Definition config_get (CONFIG : Config) : response :=
  let safe_config :=
    mkConfig (default_provider CONFIG) (default_model CONFIG)
      (bucket_name CONFIG) ((fun _ => "***") <$> api_keys CONFIG) in
  ConfigShown safe_config.

(** The calls made on a provider object. *)
Inductive llm_call : Type :=
  | GenerateSql (llm : provider) (question schema sample_data : string)
  | ExplainResults (llm : provider) (question sql_query results : string).

(** What a request leaves behind: the trace of the S3 client and the calls
    made on the provider. *)
Definition state : Type := trace * list llm_call.

Definition on_s3 {A} (m : M trace A) : M state A :=
  fun st =>
    match m (fst st) with
    | (r, t') => (r, (t', snd st))
    end.

Definition call_llm (call : llm_call) (r : result string) : M state string :=
  fun st => (r, (fst st, snd st ++ [call])).

(** [d - pd.Timedelta(days=k)], a [timedelta] subtracted from a [datetime] *)
Definition sub_days (d : datetime) (k : Z) : result datetime :=
  if 1 <=? ordinal d - k then inr (mkDatetime (ordinal d - k) (micros d))
  else inl OverflowError.

Section Handlers.

Context {V : Type}.

(** The libraries: those of [S3DataAccess]; the S3 client of a bucket;
    [f"{sample}"], [to_string()], [to_json(orient='records')] and
    [DataFrame.query] of pandas; [datetime.strptime(s, '%Y-%m-%d')],
    [datetime.now()] and [d.strftime('%Y-%m-%d')]; and, for a provider
    object, the text its model returns for the prompt of [generate_sql] and
    what [explain_results] returns. *)
Context (lib : Library V).
Context (client_list : string -> string -> result (option (list string))).
Context (client_get : string -> string -> result bytes).
Context (str_cell : cell V -> string).
Context (to_string to_json : DataFrame V -> string).
Context (eval_mask : DataFrame V -> string -> result (nat -> bool)).
Context (strptime : string -> result datetime).
Context (now : datetime).
Context (strftime : datetime -> string).
Context (complete : provider -> string -> string -> string -> result string).
Context (explain : provider -> string -> string -> string -> result string).

(** [S3DataAccess(bucket_name)] *)
Definition new_access (bucket_name : string) : S3DataAccess :=
  mkS3DataAccess "csv-data/" (client_list bucket_name) (client_get bucket_name).

Definition available_dates (CONFIG : Config) : M trace response :=
  match bucket_name CONFIG with
  | Some (String c b) =>
      let s3_access := new_access (String c b) in
      do '(start_date, end_date) <- get_available_date_range s3_access lib;
      match start_date, end_date with
      | Some start_date, Some end_date =>
          ret (Dates (strftime start_date) (strftime end_date))
      | _, _ => ret (Error 404 "No data available in S3 bucket")
      end
  | _ => ret (Error 400 "S3 bucket not configured")
  end.

(** [llm.generate_sql(question, schema, sample_data)]: the text of the
    model, then [_extract_sql]. *)
Definition generate_sql (llm : provider) (question schema sample_data : string)
  : M state string :=
  do text <- call_llm (GenerateSql llm question schema sample_data)
               (complete llm question schema sample_data);
  ret (_extract_sql text).

Definition explain_results (llm : provider) (question sql_query results : string)
  : M state string :=
  call_llm (ExplainResults llm question sql_query results)
    (explain llm question sql_query results).

(** The [try] block that reads the date range. *)
Definition date_range_of (data : QueryRequest) : result (datetime * datetime) :=
  match q_start_date data, q_end_date data with
  | Some s, Some e =>
      let? start_date := strptime s in
      let? end_date := strptime e in
      inr (start_date, end_date)
  | _, _ =>
      let end_date := now in
      let? start_date := sub_days end_date 30 in
      inr (start_date, end_date)
  end.

(** [s3_access.execute_query(df, sql_query)] on the frame just loaded: the
    frame it returns and the message. *)
Definition run_query (df : DataFrame V) (sql_query : string)
  : DataFrame V * option string :=
  match Query.execute_query (str_exn lib) eval_mask 1%positive sql_query
          {[ 1%positive := df ]} with
  | (inr (r, error), h) => (Query.frame_at h r, error)
  | (inl _, _) => (empty_frame, None)
  end.

(** The part of [query()] after the checks of the request. *)
Definition answer (question provider_name model bucket : string)
  (start_date end_date : datetime) (api_key : option string)
  : M state response :=
  let s3_access := new_access bucket in
  do df <- on_s3 (get_data_for_date_range s3_access lib start_date end_date None);
  if is_empty df then
    ret (Error 404 "No data available for the specified date range")
  else
    let schema := Schema.get_schema_from_data str_cell df in
    let sample_data := Sample.get_sample_data to_string df 5 in
    match get_provider provider_name api_key (Some model) with
    | inl ValueError => ret (Error 400 ("Unsupported provider: " +:+ provider_name))
    | inl e => raise e
    | inr llm =>
        do sql_query <- generate_sql llm question schema sample_data;
        let '(results, error) := run_query df sql_query in
        if truthy error then ret (Error 400 (default "" error))
        else
          let results_json := to_json results in
          do explanation <-
            explain_results llm question sql_query (to_string results);
          ret (Answer question sql_query results_json explanation)
    end.

Definition query (CONFIG : Config) (data : QueryRequest) : M state response :=
  match q_question data with
  | None => ret (Error 400 "Question is required")
  | Some question =>
      let provider_name := default (default_provider CONFIG) (q_provider data) in
      let model := default (default_model CONFIG) (q_model data) in
      match bucket_name CONFIG with
      | Some (String c b) =>
          let bucket := String c b in
          match date_range_of data with
          | inl ValueError =>
              ret (Error 400 "Invalid date format. Use YYYY-MM-DD")
          | inl e => raise e
          | inr (start_date, end_date) =>
              if negb (String.eqb (lower provider_name) "bedrock") then
                let api_key := api_keys CONFIG !! lower provider_name in
                if negb (truthy api_key) then
                  ret (Error 400 ("API key not configured for " +:+ provider_name))
                else
                  answer question provider_name model bucket
                    start_date end_date api_key
              else
                answer question provider_name model bucket
                  start_date end_date None
          end
      | _ => ret (Error 400 "S3 bucket not configured")
      end
  end.

End Handlers.

(** The three names that [get_provider] knows. *)
Definition supported (provider_name : string) : bool :=
  String.eqb (lower provider_name) "bedrock"
  || String.eqb (lower provider_name) "openai"
  || String.eqb (lower provider_name) "gemini".

End Api.

(** ** Sample requests *)

Module ApiExamples.

Import PyStr PyDate Frame Py S3 LLM Api.

(** One bucket, [shop], with the objects of [Examples.bucket_two_days]; any
    other bucket name is refused. *)
Definition client_list (bucket prefix : string)
  : result (option (list string)) :=
  if String.eqb bucket "shop" then s3_list Examples.bucket_two_days prefix
  else inl (LibraryError "NoSuchBucket" "The specified bucket does not exist").

Definition client_get (bucket key : string) : result bytes :=
  if String.eqb bucket "shop" then s3_get Examples.bucket_two_days key
  else inl (LibraryError "NoSuchBucket" "The specified bucket does not exist").

(** Renderings that tell the number of rows. *)
Definition to_string (df : DataFrame Z) : string :=
  str_of_int (Z.of_nat (nrows df)) +:+ " rows".

Definition to_json (df : DataFrame Z) : string :=
  "[" +:+ str_of_int (Z.of_nat (nrows df)) +:+ " records]".

(** A parser that knows two dates. *)
Definition strptime (s : string) : result datetime :=
  if String.eqb s "2024-01-02" then inr Examples.jan2
  else if String.eqb s "2024-01-03" then inr Examples.jan3
  else inl ValueError.

Definition strftime (d : datetime) : string :=
  str_of_int (year d) +:+ "-" +:+ format_02d (month d) +:+ "-"
  +:+ format_02d (day d).

(** A model that answers the question [drop] with a statement that is not a
    [select], and any other question with [SELECT value]. *)
Definition complete (llm : provider) (question schema sample_data : string)
  : result string :=
  if String.eqb question "drop" then inr "DROP TABLE orders"
  else inr "SELECT value".

Definition explain (llm : provider) (question sql_query results : string)
  : result string :=
  inr ("The statement returned " +:+ results).

(** The bucket [shop] and an API key under the name [claude]. *)
Definition shop : Config :=
  mkConfig "bedrock" "anthropic.claude-3-sonnet-20240229-v1:0" (Some "shop")
    {[ "claude" := "secret" ]}.

(** A bucket that is refused. *)
Definition cellar : Config :=
  mkConfig "bedrock" "anthropic.claude-3-sonnet-20240229-v1:0" (Some "cellar") ∅.

(** A request for 2024-01-02 to 2024-01-03. *)
Definition request (question : string) (provider : option string)
  : QueryRequest :=
  mkQueryRequest (Some question) provider None
    (Some "2024-01-02") (Some "2024-01-03").

End ApiExamples.

(** * Properties *)

(** ** [str] methods *)

Module PyStrFacts.

Import PyStr.

Lemma app_cons (c : ascii) (s t : string) :
  String c s +:+ t = String c (s +:+ t).
Proof. reflexivity. Qed.

Lemma app_nil_l (t : string) : "" +:+ t = t.
Proof. reflexivity. Qed.

(** [simpl] that also computes appends to a literal head. *)
Ltac ssimpl := simpl; rewrite ?app_cons, ?app_nil_l.
Ltac ssimpl_in H := simpl in H; rewrite ?app_cons, ?app_nil_l in H.

Lemma app_nil_r (s : string) : s +:+ "" = s.
Proof. induction s as [|c s IH]; ssimpl; [reflexivity | now rewrite IH]. Qed.

Lemma app_assoc (a b c : string) : (a +:+ b) +:+ c = a +:+ b +:+ c.
Proof. induction a as [|x a IH]; ssimpl; [reflexivity | now rewrite IH]. Qed.

Lemma len_app (a b : string) : len (a +:+ b) = (len a + len b)%nat.
Proof. induction a as [|x a IH]; ssimpl; [reflexivity | simpl; now rewrite IH]. Qed.

Lemma startswith_app (p s : string) :
  startswith p s = true <-> exists r, s = p +:+ r.
Proof.
  revert s. induction p as [|a p IH]; intros s; simpl.
  - split; [intros _; now exists s | reflexivity].
  - destruct s as [|b s].
    + split; [discriminate | intros [r Hr]; discriminate].
    + destruct (Ascii.eqb_spec a b) as [->|Hne].
      * rewrite IH. split; intros [r Hr]; exists r.
        -- now rewrite Hr.
        -- rewrite app_cons in Hr. now injection Hr.
      * split; [discriminate|].
        intros [r Hr]. rewrite app_cons in Hr. injection Hr. congruence.
Qed.

Lemma startswith_drop (p s : string) :
  startswith p s = true -> s = p +:+ drop_chars (len p) s.
Proof.
  revert s. induction p as [|a p IH]; intros s; simpl; [reflexivity|].
  destruct s as [|b s]; [discriminate|].
  destruct (Ascii.eqb_spec a b) as [->|Hne]; [|discriminate].
  intros H. rewrite app_cons. f_equal. now apply IH.
Qed.

(** [partition] cuts [s] around an occurrence of [sep]. *)
Lemma partition_Some (sep s a b : string) :
  partition sep s = Some (a, b) -> s = a +:+ sep +:+ b.
Proof.
  revert a b. induction s as [|c s IH]; intros a b; simpl.
  - destruct (startswith sep "") eqn:Hp; [|discriminate].
    intros [= <- <-]. now apply startswith_drop.
  - destruct (startswith sep (String c s)) eqn:Hp.
    + intros [= <- <-]. now apply startswith_drop.
    + destruct (partition sep s) as [[a' b']|] eqn:Hs; [|discriminate].
      intros [= <- <-]. rewrite app_cons. f_equal. now apply IH.
Qed.

(** ... and that occurrence is the leftmost one. *)
Lemma partition_leftmost (sep s a b a' b' : string) :
  partition sep s = Some (a, b) -> s = a' +:+ sep +:+ b' ->
  (len a <= len a')%nat.
Proof.
  revert a b a'. induction s as [|c s IH]; intros a b a'; simpl.
  - destruct (startswith sep ""); [|discriminate].
    intros [= <- <-] _. simpl. lia.
  - destruct (startswith sep (String c s)) eqn:Hp.
    + intros [= <- <-] _. simpl. lia.
    + destruct (partition sep s) as [[a1 b1]|] eqn:Hs; [|discriminate].
      intros [= <- <-] Heq. destruct a' as [|x a'].
      * rewrite app_nil_l in Heq.
        assert (startswith sep (String c s) = true) as Hc
          by (apply startswith_app; now exists b').
        congruence.
      * rewrite app_cons in Heq. injection Heq as -> Heq.
        simpl. apply le_n_S. now apply (IH _ _ _ eq_refl).
Qed.

Lemma partition_None (sep s : string) :
  partition sep s = None <-> ~ substring_of sep s.
Proof.
  split.
  - induction s as [|c s IH]; simpl.
    + destruct (startswith sep "") eqn:Hp; [discriminate|].
      intros _ (a & b & Heq). destruct a; [|discriminate].
      rewrite app_nil_l in Heq.
      assert (startswith sep "" = true) by (apply startswith_app; now exists b).
      congruence.
    + destruct (startswith sep (String c s)) eqn:Hp; [discriminate|].
      destruct (partition sep s) as [[a1 b1]|]; [discriminate|].
      intros _ (a & b & Heq).
      destruct a as [|x a]; rewrite ?app_nil_l, ?app_cons in Heq.
      * assert (startswith sep (String c s) = true)
          by (apply startswith_app; now exists b).
        congruence.
      * injection Heq as -> Heq. apply IH; [reflexivity | now exists a, b].
  - intros Hn. destruct (partition sep s) as [[a b]|] eqn:Hs; [|reflexivity].
    exfalso. apply Hn. exists a, b. now apply partition_Some.
Qed.

Lemma contains_true (sep s : string) :
  contains sep s = true <-> substring_of sep s.
Proof.
  unfold contains. destruct (partition sep s) as [[a b]|] eqn:Hs.
  - split; [intros _; exists a, b; now apply partition_Some | reflexivity].
  - split; [discriminate | intros H; now apply partition_None in Hs].
Qed.

(** Enough rounds: [split] obeys its recursive equation. *)
Lemma split_rounds_enough (sep : string) (n m : nat) (s : string) :
  sep <> "" -> (len s <= n)%nat -> (len s <= m)%nat ->
  split_rounds n sep s = split_rounds m sep s.
Proof.
  intros Hsep. revert m s. induction n as [|n IH]; intros m s Hn Hm.
  - destruct s; [|simpl in Hn; lia].
    destruct m; simpl; [reflexivity|].
    destruct (startswith sep "") eqn:Hp; [|reflexivity].
    apply startswith_app in Hp as [r Hr]. destruct sep; [congruence | discriminate].
  - simpl. destruct (partition sep s) as [[a b]|] eqn:Hs.
    + pose proof (partition_Some _ _ _ _ Hs) as Heq.
      assert (len s = (len a + (len sep + len b))%nat) as Hlen
        by (rewrite Heq at 1; now rewrite !len_app).
      assert (0 < len sep)%nat by (destruct sep; [congruence | simpl; lia]).
      destruct m as [|m]; [lia|]. simpl. rewrite Hs. f_equal.
      apply IH; lia.
    + destruct m; simpl; [reflexivity | now rewrite Hs].
Qed.

Lemma split_unfold (sep s : string) :
  sep <> "" ->
  split sep s =
    match partition sep s with
    | None => [s]
    | Some (a, b) => a :: split sep b
    end.
Proof.
  intros Hsep. unfold split.
  destruct (partition sep s) as [[a b]|] eqn:Hs.
  - pose proof (partition_Some _ _ _ _ Hs) as Heq.
    assert (len s = (len a + (len sep + len b))%nat) as Hlen
      by (rewrite Heq at 1; now rewrite !len_app).
    assert (0 < len sep)%nat by (destruct sep; [congruence | simpl; lia]).
    destruct (len s) as [|n] eqn:Hn; [lia|]. simpl. rewrite Hs. f_equal.
    apply split_rounds_enough; [assumption | lia | lia].
  - destruct (len s); simpl; [reflexivity | now rewrite Hs].
Qed.

Lemma replace_rounds_enough (old new : string) (n m : nat) (s : string) :
  old <> "" -> (len s <= n)%nat -> (len s <= m)%nat ->
  replace_rounds n old new s = replace_rounds m old new s.
Proof.
  intros Hold. revert m s. induction n as [|n IH]; intros m s Hn Hm.
  - destruct s; [|simpl in Hn; lia].
    destruct m; simpl; [reflexivity|].
    destruct (startswith old "") eqn:Hp; [|reflexivity].
    apply startswith_app in Hp as [r Hr]. destruct old; [congruence | discriminate].
  - simpl. destruct (partition old s) as [[a b]|] eqn:Hs.
    + pose proof (partition_Some _ _ _ _ Hs) as Heq.
      assert (len s = (len a + (len old + len b))%nat) as Hlen
        by (rewrite Heq at 1; now rewrite !len_app).
      assert (0 < len old)%nat by (destruct old; [congruence | simpl; lia]).
      destruct m as [|m]; [lia|]. simpl. rewrite Hs. do 2 f_equal.
      apply IH; lia.
    + destruct m; simpl; [reflexivity | now rewrite Hs].
Qed.

Lemma replace_unfold (old new s : string) :
  old <> "" ->
  replace old new s =
    match partition old s with
    | None => s
    | Some (a, b) => a +:+ new +:+ replace old new b
    end.
Proof.
  intros Hold. unfold replace.
  destruct (partition old s) as [[a b]|] eqn:Hs.
  - pose proof (partition_Some _ _ _ _ Hs) as Heq.
    assert (len s = (len a + (len old + len b))%nat) as Hlen
      by (rewrite Heq at 1; now rewrite !len_app).
    assert (0 < len old)%nat by (destruct old; [congruence | simpl; lia]).
    destruct (len s) as [|n] eqn:Hn; [lia|]. simpl. rewrite Hs. do 2 f_equal.
    apply replace_rounds_enough; [assumption | lia | lia].
  - destruct (len s); simpl; [reflexivity | now rewrite Hs].
Qed.

(** The pieces of [split], joined again with [sep], are the text; joined
    with [new] they are [replace]. *)
Lemma split_rounds_cons (n : nat) (sep s : string) :
  exists piece rest, split_rounds n sep s = piece :: rest.
Proof.
  destruct n; simpl; [eauto|].
  destruct (partition sep s) as [[a b]|]; eauto.
Qed.

Lemma join_cons (sep x y : string) (l : list string) :
  join sep (x :: y :: l) = x +:+ sep +:+ join sep (y :: l).
Proof. reflexivity. Qed.

Lemma join_split_rounds (n : nat) (sep s : string) :
  join sep (split_rounds n sep s) = s.
Proof.
  revert s. induction n as [|n IH]; intros s; simpl; [reflexivity|].
  destruct (partition sep s) as [[a b]|] eqn:Hp; [|reflexivity].
  destruct (split_rounds_cons n sep b) as (piece & rest & Hb).
  specialize (IH b). rewrite Hb in *. rewrite join_cons, IH.
  symmetry. now apply partition_Some.
Qed.

Lemma join_split (sep s : string) : join sep (split sep s) = s.
Proof. apply join_split_rounds. Qed.

Lemma replace_join_split (old new s : string) :
  replace old new s = join new (split old s).
Proof.
  unfold replace, split. generalize (len s) as n. intros n. revert s.
  induction n as [|n IH]; intros s; simpl; [reflexivity|].
  destruct (partition old s) as [[a b]|] eqn:Hp; [|reflexivity].
  destruct (split_rounds_cons n old b) as (piece & rest & Hb).
  specialize (IH b). rewrite Hb in *. now rewrite join_cons, IH.
Qed.

(** *** Lowercase text *)













End PyStrFacts.

(** ** Frames *)

Module FrameFacts.

Import Frame.


Section Frames.

Context {V : Type}.

Implicit Types (df : DataFrame V) (c : Column V).











End Frames.

End FrameFacts.

(** ** Query execution *)

Module QueryFacts.

Import PyStr PyStrFacts Frame Py Query.

Section Engine.

Context {V : Type}.
Context (str_exn : exn -> string).
Context (eval_mask : DataFrame V -> string -> result (nat -> bool)).

Abbreviation heap := (gmap loc (DataFrame V)).

Lemma fresh_None (h : heap) : h !! fresh (dom h) = None.
Proof. apply not_elem_of_dom, is_fresh. Qed.

Lemma insert_fresh_subseteq (h : heap) (df : DataFrame V) :
  h ⊆ <[fresh (dom h) := df]> h.
Proof. apply insert_subseteq, fresh_None. Qed.

Lemma select_columns_project (l : loc) (columns_str : string) :
  select_columns (V:=V) l columns_str = project l (column_list_of columns_str).
Proof.
  unfold select_columns, column_list_of.
  now destruct (String.eqb columns_str "*").
Qed.

(** When [where] occurs, [split] gives at least two pieces: the text before
    the first occurrence, and the text from there to the next one. *)
Lemma split_where (ql pre post : string) :
  partition "where" ql = Some (pre, post) ->
  exists w rest,
    split "where" ql = pre :: w :: rest
    /\ (partition "where" post = None /\ w = post /\ rest = []
        \/ exists post', partition "where" post = Some (w, post')
                         /\ rest = split "where" post').
Proof.
  intros Hp. rewrite split_unfold, Hp by discriminate.
  rewrite (split_unfold "where" post) by discriminate.
  destruct (partition "where" post) as [[w post']|] eqn:Hq.
  - exists w, (split "where" post'). split; [reflexivity|]. right. now exists post'.
  - exists post, []. split; [reflexivity|]. now left.
Qed.

(** [execute_query] is: extract column list and filter ([parse]), then
    project and filter ([execute]) under the [except] clause. *)
Lemma execute_query_parse (l : loc) (query : string) (h : heap) :
  execute_query str_exn eval_mask l query h =
    match parse query with
    | None =>
        (inr (fresh (dom h), Some "Query must start with SELECT"),
         <[fresh (dom h) := empty_frame]> h)
    | Some q => try_except (execute eval_mask l q) (on_error str_exn) h
    end.
Proof.
  unfold execute_query, parse. cbv zeta.
  destruct (startswith "select" (lower (strip query))); [|reflexivity].
  cbn [negb]. unfold contains.
  destruct (partition "where" (lower (strip query))) as [[pre post]|] eqn:Hp.
  - destruct (split_where _ _ _ Hp) as (w & rest & -> & _).
    unfold try_except, execute, bind, lift, index.
    cbn [lookup list_lookup nth q_columns q_filter].
    rewrite select_columns_project. reflexivity.
  - unfold try_except, execute, bind. cbn [q_columns q_filter].
    rewrite select_columns_project. reflexivity.
Qed.

Lemma df_query_run (r : loc) (d : DataFrame V) (w : string) (h : heap) :
  h !! r = Some d ->
  df_query eval_mask r w h =
    match eval_mask d w with
    | inl e => (inl e, h)
    | inr keep =>
        (inr (fresh (dom h)), <[fresh (dom h) := select_rows keep d]> h)
    end.
Proof.
  intros Hr. unfold df_query, bind, read, lift, alloc. rewrite Hr. simpl.
  now destruct (eval_mask d w).
Qed.

(** The outcomes of projection and filter on a live frame, case by case. *)
Lemma execute_outcome (l : loc) (df : DataFrame V) (q : parsed) (h : heap) :
  h !! l = Some df ->
  try_except (execute eval_mask l q) (on_error str_exn) h =
    match
      match q_columns q with
      | Wildcard => inr df
      | Columns names => getitem_list df names
      end
    with
    | inl e => error_outcome str_exn e h
    | inr d =>
        let r := fresh (dom h) in
        let h1 := <[r := d]> h in
        match q_filter q with
        | None => (inr (r, None), h1)
        | Some where_part =>
            match eval_mask d where_part with
            | inl e => error_outcome str_exn e h1
            | inr keep =>
                (inr (fresh (dom h1), None),
                 <[fresh (dom h1) := select_rows keep d]> h1)
            end
        end
    end.
Proof.
  intros Hl. destruct q as [cols flt]. cbn [q_columns q_filter].
  assert (project l cols h =
            match
              match cols with
              | Wildcard => inr df
              | Columns names => getitem_list df names
              end
            with
            | inl e => (inl e, h)
            | inr d => (inr (fresh (dom h)), <[fresh (dom h) := d]> h)
            end) as Hproj.
  { destruct cols as [|names]; simpl.
    - unfold df_copy, bind, read, alloc, copy. now rewrite Hl.
    - unfold df_getitem, bind, read, lift, alloc. rewrite Hl. simpl.
      now destruct (getitem_list df names). }
  unfold try_except, execute. cbn [q_columns q_filter].
  unfold bind at 1. rewrite Hproj.
  destruct (match cols with
            | Wildcard => inr df
            | Columns names => getitem_list df names
            end) as [e|d]; [reflexivity|].
  destruct flt as [w|]; simpl; [|reflexivity].
  unfold bind. rewrite (df_query_run _ d) by apply lookup_insert_eq.
  now destruct (eval_mask d w).
Qed.

(** *** The extracted column list and filter *)

Lemma parse_unfold (query : string) :
  parse query =
    let ql := lower (strip query) in
    if negb (startswith "select" ql) then None
    else
      match partition "where" ql with
      | None =>
          Some (mkParsed (column_list_of (strip (replace "select" "" ql))) None)
      | Some (pre, post) =>
          Some (mkParsed
                  (column_list_of (strip (replace "select" "" pre)))
                  (Some match partition "where" post with
                        | None => post
                        | Some (w, _) => w
                        end))
      end.
Proof.
  unfold parse, contains. cbv zeta.
  destruct (startswith "select" (lower (strip query))); [|reflexivity].
  cbn [negb].
  destruct (partition "where" (lower (strip query))) as [[pre post]|] eqn:Hp;
    [|reflexivity].
  destruct (split_where _ _ _ Hp) as (w & rest & -> & Hw). cbn [nth].
  destruct Hw as [(-> & -> & _)|(post' & -> & _)]; reflexivity.
Qed.



(** *** The statements about [execute_query] *)

Lemma execute_query_outcome (l : loc) (df : DataFrame V) (query : string)
  (h : heap) :
  h !! l = Some df ->
  execute_query str_exn eval_mask l query h =
    match parse query with
    | None =>
        (inr (fresh (dom h), Some "Query must start with SELECT"),
         <[fresh (dom h) := empty_frame]> h)
    | Some q =>
        match
          match q_columns q with
          | Wildcard => inr df
          | Columns names => getitem_list df names
          end
        with
        | inl e => error_outcome str_exn e h
        | inr d =>
            let r := fresh (dom h) in
            let h1 := <[r := d]> h in
            match q_filter q with
            | None => (inr (r, None), h1)
            | Some where_part =>
                match eval_mask d where_part with
                | inl e => error_outcome str_exn e h1
                | inr keep =>
                    (inr (fresh (dom h1), None),
                     <[fresh (dom h1) := select_rows keep d]> h1)
                end
            end
        end
    end.
Proof.
  intros Hl. rewrite execute_query_parse.
  destruct (parse query) as [q|]; [|reflexivity].
  now apply execute_outcome.
Qed.

(** C3 (as amended).  [execute_query] works with the column list and filter
    that [parse] extracts.  For a trimmed, lowercased statement that starts
    with [select]: without [where] there is no filter and the column clause
    is the whole statement; with [where], the statement is cut at the
    leftmost occurrence, the column clause is the text before it, and the
    filter is the text after it up to the next [where] (to the end when
    there is none), kept as it is.  The column clause with every occurrence
    of [select] taken out, trimmed, is [*] or is cut at the commas into
    trimmed names, in order.  ["select a, b where a > 5"] gives the columns
    [a], [b] and the filter [" a > 5"]. *)
Theorem parse_split_at_where :
  (forall (l : loc) (query : string) (h : heap),
      execute_query str_exn eval_mask l query h =
        match parse query with
        | None =>
            (inr (fresh (dom h), Some "Query must start with SELECT"),
             <[fresh (dom h) := empty_frame]> h)
        | Some q => try_except (execute eval_mask l q) (on_error str_exn) h
        end)
  /\ (forall query : string,
        startswith "select" (lower (strip query)) = true ->
        (partition "where" (lower (strip query)) = None ->
         parse query =
           Some (mkParsed
                   (column_list_of
                      (strip (replace "select" "" (lower (strip query)))))
                   None))
        /\ (forall pre post : string,
              partition "where" (lower (strip query)) = Some (pre, post) ->
              lower (strip query) = pre +:+ "where" +:+ post
              /\ (forall a b : string,
                    lower (strip query) = a +:+ "where" +:+ b ->
                    (len pre <= len a)%nat)
              /\ exists w : string,
                   parse query =
                     Some (mkParsed
                             (column_list_of (strip (replace "select" "" pre)))
                             (Some w))
                   /\ (partition "where" post = None /\ w = post
                       \/ exists rest : string,
                            partition "where" post = Some (w, rest))))
  /\ (forall s : string, replace "select" "" s = join "" (split "select" s))
  /\ (forall columns_str : string,
        column_list_of columns_str =
          (if String.eqb columns_str "*" then Wildcard
           else Columns (map strip (split "," columns_str)))
        /\ join "," (split "," columns_str) = columns_str)
  /\ parse "select a, b where a > 5"
     = Some (mkParsed (Columns ["a"; "b"]) (Some " a > 5")).
Proof.
  split; [apply execute_query_parse|].
  split; [|split; [|split]].
  - intros query Hsel. split.
    + intros Hp. rewrite parse_unfold. cbv zeta. now rewrite Hsel, Hp.
    + intros pre post Hp. split; [now apply partition_Some|].
      split; [intros a b Hab; exact (partition_leftmost _ _ _ _ _ _ Hp Hab)|].
      rewrite parse_unfold. cbv zeta. rewrite Hsel, Hp. cbn [negb].
      destruct (partition "where" post) as [[w rest]|] eqn:Hq.
      * exists w. split; [reflexivity|]. right. now exists rest.
      * exists post. split; [reflexivity|]. now left.
  - intros s0. apply replace_join_split.
  - intros cs. split; [reflexivity | apply join_split].
  - vm_compute. reflexivity.
Qed.


(** C8.  A statement whose trimmed, lowercased text does not start with
    [select] is turned down: nothing is extracted, the message is
    "Query must start with SELECT", and the frame returned with it is a new
    empty frame. *)
Theorem not_a_select_rejected (l : loc) (query : string) (h : heap) :
  startswith "select" (lower (strip query)) = false ->
  parse query = None
  /\ execute_query str_exn eval_mask l query h
     = (inr (fresh (dom h), Some "Query must start with SELECT"),
        <[fresh (dom h) := empty_frame]> h)
  /\ h !! fresh (dom h) = None.
Proof.
  intros Hsel.
  assert (parse query = None) as Hp
    by (rewrite parse_unfold; cbv zeta; now rewrite Hsel).
  split; [exact Hp|]. split; [|apply fresh_None].
  now rewrite execute_query_parse, Hp.
Qed.






End Engine.

(** *** The statements at sample inputs *)

(** C3, at ["  SELECT id, amount WHERE amount > 8 "], where the cut is at
    the one [where] and the filter keeps its leading blank, and at
    [" SELECT * "], which has no [where]. *)
Lemma parse_split_at_where_witness :
  parse "  SELECT id, amount WHERE amount > 8 "
  = Some (mkParsed (Columns ["id"; "amount"]) (Some " amount > 8"))
  /\ parse " SELECT * " = Some (mkParsed Wildcard None).
Proof.
  destruct (parse_split_at_where (V:=Z) Examples.str_exn Examples.eval_mask)
    as (_ & Hsplit & _).
  split.
  - destruct (Hsplit "  SELECT id, amount WHERE amount > 8 " eq_refl)
      as (_ & Hwhere).
    destruct (Hwhere "select id, amount " " amount > 8" eq_refl)
      as (_ & _ & w & Hparse & Hw).
    rewrite Hparse.
    destruct Hw as [[_ ->]|[rest Hrest]]; [reflexivity|].
    vm_compute in Hrest. discriminate Hrest.
  - destruct (Hsplit " SELECT * " eq_refl) as (Hnone & _).
    rewrite (Hnone eq_refl). reflexivity.
Defined.

(** C3 as stated fails.  In ["select selected, b where a > 5"] the column
    clause without its leading [select] is ["selected, b"]; the method works
    with the columns [ed] and [b], because every [select] is taken out, and
    on a frame with a column [selected] it fails for want of a column [ed].
    The filter of ["select a, b where a > 5"] is [" a > 5"], not ["a > 5"]. *)
Lemma select_removed_everywhere :
  parse "select selected, b where a > 5"
  = Some (mkParsed (Columns ["ed"; "b"]) (Some " a > 5"))
  /\ parse "select selected, b where a > 5"
     <> Some (mkParsed (Columns ["selected"; "b"]) (Some " a > 5"))
  /\ parse "select a, b where a > 5"
     <> Some (mkParsed (Columns ["a"; "b"]) (Some "a > 5"))
  /\ execute_query Examples.str_exn Examples.eval_mask 1%positive
       "SELECT selected" {[ 1%positive := Examples.people ]}
     = error_outcome Examples.str_exn (KeyError ["ed"])
         {[ 1%positive := Examples.people ]}.
Proof.
  split; [vm_compute; reflexivity|].
  split; [vm_compute; discriminate|].
  split; [vm_compute; discriminate|].
  vm_compute. reflexivity.
Qed.


(** C8, at ["DROP TABLE x"]. *)
Lemma not_a_select_rejected_witness :
  parse "DROP TABLE x" = None
  /\ execute_query Examples.str_exn Examples.eval_mask 1%positive
       "DROP TABLE x" {[ 1%positive := Examples.orders ]}
     = (inr (fresh (dom ({[ 1%positive := Examples.orders ]}
                           : gmap loc (DataFrame Z))),
             Some "Query must start with SELECT"),
        <[fresh (dom ({[ 1%positive := Examples.orders ]}
                        : gmap loc (DataFrame Z))) := empty_frame]>
          {[ 1%positive := Examples.orders ]})
  /\ ({[ 1%positive := Examples.orders ]} : gmap loc (DataFrame Z))
       !! fresh (dom ({[ 1%positive := Examples.orders ]}
                        : gmap loc (DataFrame Z))) = None.
Proof.
  apply (not_a_select_rejected Examples.str_exn Examples.eval_mask
           1%positive "DROP TABLE x" {[ 1%positive := Examples.orders ]}).
  reflexivity.
Defined.




End QueryFacts.

(** ** Schema description and concatenation *)

Module SchemaFacts.

Import PyStr Frame FrameFacts Schema.

Section Describe.

Context {V : Type}.
Context (str_cell : cell V -> string).

Lemma first_non_null_None (values : list (cell V)) :
  first_non_null values = None <-> all_na values = true.
Proof.
  unfold first_non_null.
  induction values as [|[v|] values IH]; simpl.
  - tauto.
  - split; discriminate.
  - exact IH.
Qed.

Lemma find_label_NoDup (cols : list (Column V)) (c : Column V) :
  NoDup (map col_name cols) -> c ∈ cols ->
  find (fun c' => String.eqb (col_name c') (col_name c)) cols = Some c.
Proof.
  induction cols as [|c0 cols IH]; simpl.
  - intros _ Hin. now apply elem_of_nil in Hin.
  - intros [Hnin Hnd]%NoDup_cons [->|Hin]%elem_of_cons.
    + now rewrite String.eqb_refl.
    + destruct (String.eqb_spec (col_name c0) (col_name c)) as [Heq|_];
        [|now apply IH].
      exfalso. apply Hnin. rewrite Heq. apply list_elem_of_fmap. eauto.
Qed.

(** With distinct labels the loop visits the columns of the frame, in
    order, each under its own label. *)
Lemma schema_entries_columns (df : DataFrame V) :
  NoDup (labels df) ->
  schema_entries df =
    map (fun c => (col_name c, col_dtype c, sample_of (col_values c)))
        (columns df).
Proof.
  intros Hnd. unfold schema_entries, labels.
  assert (forall c, c ∈ columns df -> describe df (col_name c)
            = Some (col_name c, col_dtype c, sample_of (col_values c))) as Hd.
  { intros c Hc. unfold describe, getitem.
    now rewrite (find_label_NoDup _ _ Hnd Hc). }
  clear Hnd. revert Hd. generalize (describe df) as f.
  induction (columns df) as [|c cols IH]; intros f Hd; simpl; [reflexivity|].
  rewrite Hd by now left. simpl. f_equal. apply IH.
  intros c' Hc'. apply Hd. now right.
Qed.

Lemma schema_entries_length (df : DataFrame V) :
  NoDup (labels df) -> length (schema_entries df) = length (columns df).
Proof. intros Hnd. now rewrite schema_entries_columns, length_map. Qed.

(** C4 (as amended).  On an empty frame the description is the sentence
    "No data available to generate schema.".  Otherwise, for a frame with
    distinct labels, it is the heading and one line per column, in order,
    whose example is: the marker [NULL] when the column is entirely
    missing; else the value in the first row.  That value is the first one
    that is not missing exactly when the first row is not missing; when the
    first row is missing and a later one is not, the example is the missing
    value of the first row. *)
Theorem schema_example_is_first_row (df : DataFrame V) :
  (is_empty df = true ->
   get_schema_from_data str_cell df = "No data available to generate schema.")
  /\ (is_empty df = false -> NoDup (labels df) ->
      get_schema_from_data str_cell df
      = join newline
          ("Table Schema:"
           :: map (fun c =>
                     schema_line str_cell
                       (col_name c, col_dtype c, sample_of (col_values c)))
                (columns df))
      /\ forall c, c ∈ columns df ->
           (first_non_null (col_values c) = None ->
            sample_of (col_values c) = Null)
           /\ (forall v rest, col_values c = Some v :: rest ->
                 sample_of (col_values c) = Example (Some v)
                 /\ first_non_null (col_values c) = Some v)
           /\ (forall v rest, col_values c = None :: rest ->
                 first_non_null rest = Some v ->
                 sample_of (col_values c) = Example None
                 /\ first_non_null (col_values c) = Some v)).
Proof.
  split.
  - intros He. unfold get_schema_from_data. now rewrite He.
  - intros He Hnd. split.
    + unfold get_schema_from_data. rewrite He.
      now rewrite (schema_entries_columns df Hnd), map_map.
    + intros c _. split; [|split].
      * intros Hn. apply first_non_null_None in Hn.
        unfold sample_of. now rewrite Hn.
      * intros v rest ->. split; reflexivity.
      * intros v rest -> Hv. split; [|exact Hv].
        unfold sample_of. simpl.
        destruct (all_na rest) eqn:Hall; [|reflexivity].
        apply first_non_null_None in Hall. congruence.
Qed.

End Describe.

(** C4, at the empty frame, at [orders], and at the columns of [gaps]:
    [y] is entirely missing, [x] starts with a missing value and has [5]
    below it. *)
Lemma schema_example_is_first_row_witness :
  get_schema_from_data Examples.str_cell (@empty_frame Z)
  = "No data available to generate schema."
  /\ get_schema_from_data Examples.str_cell Examples.orders
     = join newline
         ["Table Schema:";
          "- id (int64): Example value: 1";
          "- amount (int64): Example value: 10"]
  /\ sample_of [Some 1; Some 2; Some 3] = Example (Some 1)
  /\ sample_of ([None; None; None] : list (cell Z)) = Null
  /\ sample_of [None; Some 5; Some 6] = Example None.
Proof.
  destruct (schema_example_is_first_row Examples.str_cell (@empty_frame Z))
    as [Hempty _].
  destruct (schema_example_is_first_row Examples.str_cell Examples.orders)
    as [_ Horders].
  destruct (schema_example_is_first_row Examples.str_cell Examples.gaps)
    as [_ Hgaps].
  split; [exact (Hempty eq_refl)|].
  destruct (Horders eq_refl) as [Htext Hcols].
  { apply (bool_decide_unpack (NoDup (labels Examples.orders))).
    vm_compute. exact I. }
  destruct (Hgaps eq_refl) as [_ Hgcols].
  { apply (bool_decide_unpack (NoDup (labels Examples.gaps))).
    vm_compute. exact I. }
  split; [rewrite Htext; vm_compute; reflexivity|].
  split; [|split].
  - destruct (Hcols (mkColumn "id" "int64" [Some 1; Some 2; Some 3]))
      as (_ & Hfirst & _); [left|].
    exact (proj1 (Hfirst 1 [Some 2; Some 3] eq_refl)).
  - destruct (Hgcols (mkColumn "y" "float64" [None; None; None]))
      as (Hnull & _); [right; left|].
    exact (Hnull eq_refl).
  - destruct (Hgcols (mkColumn "x" "float64" [None; Some 5; Some 6]))
      as (_ & _ & Hlater); [left|].
    exact (proj1 (Hlater 5 [Some 5; Some 6] eq_refl eq_refl)).
Defined.

(** C4 as stated fails.  Column [x] of [gaps] holds [NaN, 5, 6]: its first
    value that is not missing is [5], the example reported is the missing
    value of the first row, printed [nan]. *)
Lemma example_can_be_missing :
  schema_entries Examples.gaps
  = [("x", "float64", Example None); ("y", "float64", Null)]
  /\ first_non_null [None; Some 5; Some 6] = Some 5
  /\ get_schema_from_data Examples.str_cell Examples.gaps
     = join newline
         ["Table Schema:";
          "- x (float64): Example value: nan";
          "- y (float64): Example value: NULL"].
Proof. repeat split; vm_compute; reflexivity. Qed.

End SchemaFacts.

Module ConcatFacts.

Import PyStr Frame FrameFacts.

Section Concat.

Context {V : Type}.
Context (common_dtype : list (option string) -> string).










End Concat.


End ConcatFacts.

(** ** Partition catalogue and ingestion *)

Module S3Facts.

Import PyStr PyDate Frame Py S3.


Lemma no_limit_never_reached (limit : option Z) (file_count : Z) :
  no_limit limit -> limit_reached limit file_count = false.
Proof. intros [->| ->]; reflexivity. Qed.

Section Client.

Context {V : Type}.
Context (self : S3DataAccess) (lib : Library V).

Lemma read_object_run (key : string) (t : trace) :
  read_object self lib key t = (fetch_frame self lib key, t ++ [GetObject key]).
Proof.
  unfold read_object, fetch_frame, get_object, bind, lift, rbind.
  destruct (s3_get self key) as [e|content]; [reflexivity|].
  now destruct (gunzip lib content).
Qed.

(** *** [get_available_date_range] *)

Lemma collect_dates_skipped (keys : list string) (dates : list datetime) :
  (forall key, key ∈ keys -> key_date key = inr None) ->
  collect_dates keys dates = inr dates.
Proof.
  induction keys as [|key keys IH]; intros Hskip; simpl; [reflexivity|].
  rewrite (Hskip key) by now left. simpl. apply IH.
  intros k Hk. apply Hskip. now right.
Qed.

(** C2 (as amended).  [get_available_date_range] returns the pair
    [(None, None)] when the listing raises, when the response has no
    ['Contents'], and when no key yields a date.  A failure of the storage
    is printed and otherwise not told apart from "no data": the value
    returned is the same. *)
Theorem storage_failure_reads_as_no_data (t0 : trace) :
  (forall e, s3_list self (base_path self) = inl e ->
     get_available_date_range self lib t0
     = (inr (None, None),
        t0 ++ [ListObjects (base_path self)]
           ++ [Print ("Error getting available date range: " +:+ str_exn lib e)]))
  /\ (s3_list self (base_path self) = inr None ->
      get_available_date_range self lib t0
      = (inr (None, None), t0 ++ [ListObjects (base_path self)]))
  /\ (forall keys, s3_list self (base_path self) = inr (Some keys) ->
        (forall key, key ∈ keys -> key_date key = inr None) ->
        get_available_date_range self lib t0
        = (inr (None, None), t0 ++ [ListObjects (base_path self)])).
Proof.
  unfold get_available_date_range, try_except, bind, list_objects_v2, print.
  split; [|split].
  - intros e ->. simpl. now rewrite <- app_assoc.
  - intros ->. reflexivity.
  - intros keys -> Hskip. unfold lift.
    now rewrite (collect_dates_skipped keys [] Hskip).
Qed.

(** *** [get_data_for_date_range] *)

Lemma process_objects_cons (limit : option Z) (key : string)
  (keys : list string) (all_data : list (DataFrame V)) (file_count : Z)
  (t : trace) :
  process_objects self lib limit (key :: keys) all_data file_count t =
    if endswith ".csv.gz" key then
      match fetch_frame self lib key with
      | inl e => (inl e, t ++ [GetObject key])
      | inr df =>
          if limit_reached limit (file_count + 1)
          then (inr (all_data ++ [df], file_count + 1), t ++ [GetObject key])
          else process_objects self lib limit keys (all_data ++ [df])
                 (file_count + 1) (t ++ [GetObject key])
      end
    else process_objects self lib limit keys all_data file_count t.
Proof.
  cbn [process_objects]. destruct (endswith ".csv.gz" key); [|reflexivity].
  unfold bind at 1. rewrite read_object_run.
  destruct (fetch_frame self lib key) as [e|df]; [reflexivity|].
  now destruct (limit_reached limit (file_count + 1)).
Qed.




Lemma process_dates_cons (limit : option Z) (date : datetime)
  (dates : list datetime) (all_data : list (DataFrame V)) (file_count : Z)
  (t : trace) :
  process_dates self lib limit (date :: dates) all_data file_count t =
    match s3_list self (date_prefix self date) with
    | inl e => (inl e, t ++ [ListObjects (date_prefix self date)])
    | inr response =>
        match process_objects self lib limit (default [] response) all_data
                file_count (t ++ [ListObjects (date_prefix self date)]) with
        | (inl e, t') => (inl e, t')
        | (inr (all_data', file_count'), t') =>
            if limit_reached limit file_count'
            then (inr (all_data', file_count'), t')
            else process_dates self lib limit dates all_data' file_count' t'
        end
    end.
Proof.
  cbn [process_dates]. unfold bind at 1, list_objects_v2.
  destruct (s3_list self (date_prefix self date)) as [e|response];
    [reflexivity|].
  unfold bind.
  destruct (process_objects _ _ _ _ _ _ _) as [[e|[all_data' file_count']] t'];
    [reflexivity|].
  now destruct (limit_reached limit file_count').
Qed.




Lemma get_data_for_date_range_run (start_date end_date : datetime)
  (limit : option Z) (t : trace) :
  get_data_for_date_range self lib start_date end_date limit t =
    match date_range start_date end_date with
    | inl e =>
        (inr empty_frame,
         t ++ [Print ("Error getting data for date range: " +:+ str_exn lib e)])
    | inr date_list =>
        match process_dates self lib limit date_list [] 0 t with
        | (inl e, t') =>
            (inr empty_frame,
             t' ++ [Print ("Error getting data for date range: "
                           +:+ str_exn lib e)])
        | (inr (all_data, _), t') =>
            (inr match all_data with
                 | [] => empty_frame
                 | _ :: _ => concat (common_dtype lib) all_data
                 end, t')
        end
    end.
Proof.
  unfold get_data_for_date_range, try_except, lift, print.
  unfold bind at 1.
  destruct (date_range start_date end_date) as [e|date_list]; [reflexivity|].
  unfold bind.
  destruct (process_dates _ _ _ _ _ _ _) as [[e|[all_data file_count]] t'];
    [reflexivity|].
  now destruct all_data.
Qed.


(** *** The dates of a range *)

Lemma le_plus_days (s e : datetime) (k : Z) :
  le (plus_days s k) e
  = (ordinal s + k <? ordinal e)
    || ((ordinal s + k =? ordinal e) && (micros s <=? micros e)).
Proof. reflexivity. Qed.

Lemma plus_days_0 (s : datetime) : plus_days s 0 = s.
Proof. destruct s as [o m]. unfold plus_days. simpl. f_equal. lia. Qed.

Lemma plus_days_plus (s : datetime) (a b : Z) :
  plus_days (plus_days s a) b = plus_days s (a + b).
Proof. unfold plus_days. simpl. f_equal. lia. Qed.



Lemma delta_days_eq (s e : datetime) :
  0 <= micros s < DAY_US -> 0 <= micros e < DAY_US ->
  delta_days s e
  = ordinal e - ordinal s + (if micros s <=? micros e then 0 else -1).
Proof.
  intros Hs He. unfold delta_days, DAY_US in *.
  destruct (micros s <=? micros e) eqn:Hcmp.
  - apply Z.leb_le in Hcmp. symmetry.
    apply (Z.div_unique_pos _ _ _ (micros e - micros s)); lia.
  - apply Z.leb_gt in Hcmp. symmetry.
    apply (Z.div_unique_pos _ _ _ (micros e - micros s + 86400000000)); lia.
Qed.

(** The dates [s], [s + 1 day], ... that are not after [e] are the first
    [(e - s).days + 1]. *)
Lemma range_bounds (s e : datetime) :
  0 <= micros s < DAY_US -> 0 <= micros e < DAY_US -> le s e = true ->
  0 <= delta_days s e
  /\ (Z.to_nat (delta_days s e + 1) <= date_fuel s e)%nat
  /\ (forall k, (k < Z.to_nat (delta_days s e + 1))%nat ->
        le (plus_days s (Z.of_nat k)) e = true)
  /\ le (plus_days s (Z.of_nat (Z.to_nat (delta_days s e + 1)))) e = false.
Proof.
  intros Hsm Hem Hle.
  rewrite (delta_days_eq s e Hsm Hem).
  unfold le in Hle. unfold date_fuel.
  assert (ordinal s < ordinal e
          \/ ordinal s = ordinal e /\ (micros s <=? micros e) = true) as Hcase.
  { destruct (ordinal s <? ordinal e) eqn:Hlt; [left; lia|]. right.
    simpl in Hle. apply andb_prop in Hle as [Heq Hm].
    split; [lia | exact Hm]. }
  split; [|split; [|split]].
  - destruct (micros s <=? micros e); [lia|].
    destruct Hcase as [Hlt|[_ Hm]]; [lia | discriminate].
  - destruct (micros s <=? micros e); lia.
  - intros k Hk. rewrite le_plus_days.
    destruct (micros s <=? micros e) eqn:Hcmp.
    + destruct (ordinal s + Z.of_nat k <? ordinal e) eqn:Hlt; [reflexivity|].
      simpl. apply andb_true_intro. split; [lia | reflexivity].
    + replace (ordinal s + Z.of_nat k <? ordinal e) with true
        by (symmetry; apply Z.ltb_lt; lia).
      reflexivity.
  - rewrite le_plus_days.
    destruct (micros s <=? micros e) eqn:Hcmp.
    + replace (ordinal s + _ <? ordinal e) with false
        by (symmetry; apply Z.ltb_ge; lia).
      replace (ordinal s + _ =? ordinal e) with false
        by (symmetry; apply Z.eqb_neq; lia).
      reflexivity.
    + destruct Hcase as [Hlt|[_ Hm]]; [|discriminate].
      replace (ordinal s + _ <? ordinal e) with false
        by (symmetry; apply Z.ltb_ge; lia).
      now rewrite andb_false_r.
Qed.




End Client.

(** *** The statements at sample buckets *)



(** C2, at a bucket that cannot be reached, a bucket without objects, and a
    bucket whose only key is not under a date. *)
Lemma storage_failure_reads_as_no_data_witness :
  get_available_date_range (bucket_down "csv-data/") Examples.lib []
  = (inr (None, None),
     [ListObjects "csv-data/";
      Print "Error getting available date range: Could not connect"])
  /\ get_available_date_range Examples.bucket_empty Examples.lib []
     = (inr (None, None), [ListObjects "csv-data/"])
  /\ get_available_date_range Examples.bucket_stray Examples.lib []
     = (inr (None, None), [ListObjects "csv-data/"]).
Proof.
  destruct (storage_failure_reads_as_no_data (bucket_down "csv-data/")
              Examples.lib []) as (Hdown & _ & _).
  destruct (storage_failure_reads_as_no_data Examples.bucket_empty
              Examples.lib []) as (_ & Hempty & _).
  destruct (storage_failure_reads_as_no_data Examples.bucket_stray
              Examples.lib []) as (_ & _ & Hstray).
  split; [exact (Hdown _ eq_refl)|]. split; [exact (Hempty eq_refl)|].
  apply (Hstray ["csv-data/readme.txt"] eq_refl).
  intros key ->%list_elem_of_singleton. reflexivity.
Defined.

(** C2 as stated fails.  A bucket that cannot be reached and a bucket
    without objects give the caller the same value, [(None, None)]; no
    error reaches the caller. *)
Lemma storage_failure_not_told_apart :
  (get_available_date_range (bucket_down "csv-data/") Examples.lib []).1
  = inr (None, None)
  /\ (get_available_date_range (bucket_down "csv-data/") Examples.lib []).1
     = (get_available_date_range Examples.bucket_empty Examples.lib []).1.
Proof. split; vm_compute; reflexivity. Qed.

(** The listing of a bucket with two days gives the first and the last. *)
Example available_range_two_days :
  (get_available_date_range Examples.bucket_two_days Examples.lib []).1
  = inr (Some Examples.jan2, Some Examples.jan3).
Proof. vm_compute. reflexivity. Qed.



End S3Facts.

(** ** More on the partition catalogue and the load *)

Module LoadFacts.

Import PyStr PyDate Frame Py S3 Load S3Facts.

Lemma fetched_app (t1 t2 : trace) : fetched (t1 ++ t2) = fetched t1 ++ fetched t2.
Proof. apply omap_app. Qed.

Lemma printed_app (t1 t2 : trace) : printed (t1 ++ t2) = printed t1 ++ printed t2.
Proof. apply omap_app. Qed.

Section Client.

Context {V : Type}.
Context (self : S3DataAccess) (lib : Library V).

(** *** The file limit *)

Lemma process_objects_limit_ext (l1 l2 : option Z) (keys : list string)
  (all_data : list (DataFrame V)) (file_count : Z) (t : trace) :
  (forall n, limit_reached l1 n = limit_reached l2 n) ->
  process_objects self lib l1 keys all_data file_count t
  = process_objects self lib l2 keys all_data file_count t.
Proof.
  intros Hext. revert all_data file_count t.
  induction keys as [|key keys IH]; intros all_data file_count t; [reflexivity|].
  rewrite !process_objects_cons.
  destruct (endswith ".csv.gz" key); [|apply IH].
  destruct (fetch_frame self lib key) as [e|df]; [reflexivity|].
  rewrite Hext. destruct (limit_reached l2 (file_count + 1)); [reflexivity|].
  apply IH.
Qed.

Lemma process_dates_limit_ext (l1 l2 : option Z) (dates : list datetime)
  (all_data : list (DataFrame V)) (file_count : Z) (t : trace) :
  (forall n, limit_reached l1 n = limit_reached l2 n) ->
  process_dates self lib l1 dates all_data file_count t
  = process_dates self lib l2 dates all_data file_count t.
Proof.
  intros Hext. revert all_data file_count t.
  induction dates as [|date dates IH]; intros all_data file_count t; [reflexivity|].
  rewrite !process_dates_cons.
  destruct (s3_list self (date_prefix self date)) as [e|response]; [reflexivity|].
  rewrite (process_objects_limit_ext l1 l2) by exact Hext.
  destruct (process_objects _ _ _ _ _ _ _) as [[e|[all_data' file_count']] t'];
    [reflexivity|].
  rewrite Hext. destruct (limit_reached l2 file_count'); [reflexivity|].
  apply IH.
Qed.

(** X1.  A limit of [0] is no limit: the load with [limit=0] does what the
    load with [limit=None] does, whatever the bucket holds. *)
Theorem limit_zero_is_no_limit (start_date end_date : datetime) (t : trace) :
  get_data_for_date_range self lib start_date end_date (Some 0) t
  = get_data_for_date_range self lib start_date end_date None t.
Proof.
  rewrite !get_data_for_date_range_run.
  destruct (date_range start_date end_date) as [e|dates]; [reflexivity|].
  now rewrite (process_dates_limit_ext (Some 0) None).
Qed.

Lemma process_objects_fetch_count (n : Z) (keys : list string)
  (all_data : list (DataFrame V)) (file_count : Z) (t : trace) :
  0 < n -> file_count < n ->
  let out := process_objects self lib (Some n) keys all_data file_count t in
  Z.of_nat (length (fetched out.2))
  <= Z.of_nat (length (fetched t)) + (n - file_count)
  /\ forall all_data' file_count',
       out.1 = inr (all_data', file_count') ->
       file_count' <= n
       /\ Z.of_nat (length (fetched out.2))
          = Z.of_nat (length (fetched t)) + (file_count' - file_count).
Proof.
  intros Hn. revert all_data file_count t.
  induction keys as [|key keys IH]; intros all_data file_count t Hlt.
  - simpl. split; [lia|]. intros ? ? [= <- <-]. lia.
  - cbv zeta. rewrite process_objects_cons.
    destruct (endswith ".csv.gz" key); [|now apply IH].
    assert (Z.of_nat (length (fetched (t ++ [GetObject key])))
            = Z.of_nat (length (fetched t)) + 1) as Hone
      by (rewrite fetched_app, length_app; simpl; lia).
    destruct (fetch_frame self lib key) as [e|df].
    { cbn [fst snd]. split; [lia | discriminate]. }
    unfold limit_reached.
    replace (n =? 0) with false by (symmetry; apply Z.eqb_neq; lia).
    cbn [negb andb].
    destruct (n <=? file_count + 1) eqn:Hle.
    + apply Z.leb_le in Hle. cbn [fst snd]. split; [lia|].
      intros ? ? [= <- <-]. lia.
    + apply Z.leb_gt in Hle.
      destruct (IH (all_data ++ [df]) (file_count + 1)
                  (t ++ [GetObject key]) Hle) as [Hb Hr].
      split; [lia|]. intros a' f' Hout.
      destruct (Hr a' f' Hout). lia.
Qed.

Lemma process_dates_fetch_count (n : Z) (dates : list datetime)
  (all_data : list (DataFrame V)) (file_count : Z) (t : trace) :
  0 < n -> file_count < n ->
  Z.of_nat (length (fetched
     (process_dates self lib (Some n) dates all_data file_count t).2))
  <= Z.of_nat (length (fetched t)) + (n - file_count).
Proof.
  intros Hn. revert all_data file_count t.
  induction dates as [|date dates IH]; intros all_data file_count t Hlt.
  - simpl. lia.
  - rewrite process_dates_cons.
    assert (fetched (t ++ [ListObjects (date_prefix self date)]) = fetched t)
      as Hsame by (rewrite fetched_app; apply app_nil_r).
    destruct (s3_list self (date_prefix self date)) as [e|response].
    { cbn [snd]. rewrite Hsame. lia. }
    pose proof (process_objects_fetch_count n (default [] response) all_data
                  file_count (t ++ [ListObjects (date_prefix self date)]) Hn Hlt)
      as [Hb Hr].
    rewrite Hsame in Hb, Hr.
    destruct (process_objects _ _ _ _ _ _ _) as [[e|[all_data' file_count']] t'];
      cbn [fst snd] in *; [exact Hb|].
    destruct (Hr all_data' file_count' eq_refl) as [Hle Heq].
    unfold limit_reached.
    replace (n =? 0) with false by (symmetry; apply Z.eqb_neq; lia).
    cbn [negb andb].
    destruct (n <=? file_count') eqn:Hcmp; [cbn [snd]; lia|].
    apply Z.leb_gt in Hcmp. specialize (IH all_data' file_count' t' Hcmp). lia.
Qed.

(** X2.  With a file limit [n > 0] the load fetches at most [n] objects,
    over all dates of the range together. *)
Theorem limit_bounds_fetches (start_date end_date : datetime) (n : Z)
  (t : trace) :
  0 < n ->
  Z.of_nat (length (fetched
     (get_data_for_date_range self lib start_date end_date (Some n) t).2))
  <= Z.of_nat (length (fetched t)) + n.
Proof.
  intros Hn. rewrite get_data_for_date_range_run.
  destruct (date_range start_date end_date) as [e|dates].
  { cbn [snd]. rewrite fetched_app. simpl. rewrite app_nil_r. lia. }
  pose proof (process_dates_fetch_count n dates [] 0 t Hn Hn) as Hb.
  destruct (process_dates _ _ _ _ _ _ _) as [[e|[all_data file_count]] t'];
    cbn [snd] in *; [|lia].
  rewrite fetched_app. simpl. rewrite app_nil_r. lia.
Qed.

(** *** What is fetched, and what comes back *)

Lemma listing_served (date : datetime) (response : option (list string)) :
  s3_list self (date_prefix self date) = inr response ->
  listing self date = default [] response.
Proof. unfold listing. intros ->. now destruct response. Qed.

Lemma process_objects_prefix (limit : option Z) (keys : list string)
  (all_data : list (DataFrame V)) (file_count : Z) (t : trace) :
  let out := process_objects self lib limit keys all_data file_count t in
  exists ks rest,
    filter (fun k => endswith ".csv.gz" k = true) keys = ks ++ rest
    /\ fetched out.2 = fetched t ++ ks
    /\ forall all_data' file_count',
         out.1 = inr (all_data', file_count') ->
         limit_reached limit file_count' = false -> rest = [].
Proof.
  revert all_data file_count t.
  induction keys as [|key keys IH]; intros all_data file_count t.
  - exists [], []. simpl. rewrite app_nil_r. auto.
  - cbv zeta. rewrite process_objects_cons, filter_cons.
    destruct (endswith ".csv.gz" key) eqn:Hcsv.
    + rewrite decide_True by reflexivity.
      assert (fetched (t ++ [GetObject key]) = fetched t ++ [key]) as Hone
        by now rewrite fetched_app.
      destruct (fetch_frame self lib key) as [e|df].
      { exists [key], (filter (fun k => endswith ".csv.gz" k = true) keys).
        cbn [fst snd]. split; [reflexivity|]. split; [exact Hone | discriminate]. }
      destruct (limit_reached limit (file_count + 1)) eqn:Hlim.
      { exists [key], (filter (fun k => endswith ".csv.gz" k = true) keys).
        cbn [fst snd]. split; [reflexivity|]. split; [exact Hone|].
        intros ? ? [= <- <-]. congruence. }
      destruct (IH (all_data ++ [df]) (file_count + 1) (t ++ [GetObject key]))
        as (ks & rest & Hsplit & Hfetched & Hrest).
      exists (key :: ks), rest. split; [simpl; now rewrite Hsplit|].
      split; [|exact Hrest].
      rewrite Hfetched, Hone, <- app_assoc. reflexivity.
    + rewrite decide_False by congruence. apply IH.
Qed.

Lemma process_dates_prefix (limit : option Z) (dates : list datetime)
  (all_data : list (DataFrame V)) (file_count : Z) (t : trace) :
  exists ks,
    ks `prefix_of` range_keys self dates
    /\ fetched (process_dates self lib limit dates all_data file_count t).2
       = fetched t ++ ks.
Proof.
  revert all_data file_count t.
  induction dates as [|date dates IH]; intros all_data file_count t.
  - exists []. simpl. rewrite app_nil_r. split; [apply prefix_nil | reflexivity].
  - rewrite process_dates_cons.
    assert (fetched (t ++ [ListObjects (date_prefix self date)]) = fetched t)
      as Hsame by (rewrite fetched_app; apply app_nil_r).
    destruct (s3_list self (date_prefix self date)) as [e|response] eqn:Hlist.
    { exists []. cbn [snd]. rewrite Hsame, app_nil_r.
      split; [apply prefix_nil | reflexivity]. }
    destruct (process_objects_prefix limit (default [] response) all_data
                file_count (t ++ [ListObjects (date_prefix self date)]))
      as (ks & rest & Hsplit & Hfetched & Hrest).
    rewrite Hsame in Hfetched.
    unfold range_keys. cbn [flat_map].
    rewrite (listing_served date response Hlist), Hsplit.
    destruct (process_objects _ _ _ _ _ _ _) as [[e|[all_data' file_count']] t'];
      cbn [fst snd] in *.
    { exists ks. split; [|exact Hfetched].
      rewrite <- app_assoc. now apply prefix_app_r. }
    destruct (limit_reached limit file_count') eqn:Hlim.
    { exists ks. split; [|exact Hfetched].
      rewrite <- app_assoc. now apply prefix_app_r. }
    rewrite (Hrest all_data' file_count' eq_refl Hlim), app_nil_r.
    destruct (IH all_data' file_count' t') as (ks' & Hpre & Hf).
    exists (ks ++ ks'). split; [now apply prefix_app|].
    now rewrite Hf, Hfetched, <- app_assoc.
Qed.

(** X3.  Whatever the limit and whatever fails, the objects a load fetches
    are a leading part of the keys ending in [.csv.gz] that the listings of
    the range return, taken by date and then in listing order: no other key
    is ever fetched, none is fetched twice over, and none is skipped. *)
Theorem fetches_leading_csv_keys (start_date end_date : datetime)
  (limit : option Z) (t : trace) (dates : list datetime) :
  date_range start_date end_date = inr dates ->
  exists ks,
    ks `prefix_of` range_keys self dates
    /\ fetched (get_data_for_date_range self lib start_date end_date limit t).2
       = fetched t ++ ks.
Proof.
  intros Hdates. rewrite get_data_for_date_range_run, Hdates.
  destruct (process_dates_prefix limit dates [] 0 t) as (ks & Hpre & Hf).
  exists ks. split; [exact Hpre|].
  destruct (process_dates _ _ _ _ _ _ _) as [[e|[all_data file_count]] t'];
    cbn [snd] in *; [|exact Hf].
  rewrite fetched_app, Hf. simpl. now rewrite app_nil_r.
Qed.

Lemma fetched_gets (ks : list string) : fetched (map GetObject ks) = ks.
Proof. induction ks as [|k ks IH]; simpl; [reflexivity | now rewrite IH]. Qed.

Lemma printed_gets (ks : list string) : printed (map GetObject ks) = [].
Proof. induction ks as [|k ks IH]; simpl; [reflexivity | exact IH]. Qed.

Lemma process_objects_all (limit : option Z) (keys : list string)
  (all_data : list (DataFrame V)) (file_count : Z) (t : trace) :
  no_limit limit ->
  (forall key, key ∈ keys -> endswith ".csv.gz" key = true ->
               readable self lib key) ->
  let csv := filter (fun k => endswith ".csv.gz" k = true) keys in
  process_objects self lib limit keys all_data file_count t
  = (inr (all_data ++ frames_of self lib csv,
          file_count + Z.of_nat (length csv)),
     t ++ map GetObject csv)
  /\ length (frames_of self lib csv) = length csv.
Proof.
  intros Hlim. revert all_data file_count t.
  induction keys as [|key keys IH]; intros all_data file_count t Hok.
  - simpl. rewrite !app_nil_r, Z.add_0_r. auto.
  - cbv zeta. rewrite process_objects_cons, filter_cons.
    assert (forall k, k ∈ keys -> endswith ".csv.gz" k = true ->
                      readable self lib k) as Hok'
      by (intros k Hk; apply Hok; now right).
    destruct (endswith ".csv.gz" key) eqn:Hcsv.
    + rewrite decide_True by reflexivity.
      destruct (Hok key) as [df Hdf]; [now left | exact Hcsv|].
      rewrite Hdf, (no_limit_never_reached _ _ Hlim).
      destruct (IH (all_data ++ [df]) (file_count + 1) (t ++ [GetObject key]) Hok')
        as [-> Hlen].
      unfold frames_of in *. cbn [omap list_omap length map]. rewrite Hdf.
      cbn [length]. split; [|now rewrite Hlen].
      f_equal; [|now rewrite <- app_assoc].
      f_equal. f_equal; [now rewrite <- app_assoc | lia].
    + rewrite decide_False by congruence. now apply IH.
Qed.

Lemma process_dates_all (limit : option Z) (dates : list datetime)
  (all_data : list (DataFrame V)) (file_count : Z) (t : trace) :
  no_limit limit -> all_served self lib dates ->
  exists file_count' t',
    process_dates self lib limit dates all_data file_count t
    = (inr (all_data ++ frames_of self lib (range_keys self dates), file_count'),
       t')
    /\ length (frames_of self lib (range_keys self dates))
       = length (range_keys self dates)
    /\ fetched t' = fetched t ++ range_keys self dates
    /\ printed t' = printed t.
Proof.
  intros Hlim. revert all_data file_count t.
  induction dates as [|date dates IH]; intros all_data file_count t Hserved.
  - exists file_count, t. simpl. rewrite !app_nil_r. auto.
  - rewrite process_dates_cons.
    destruct (Hserved date) as (response & Hlist & Hfiles); [now left|].
    rewrite Hlist.
    destruct (process_objects_all limit (default [] response) all_data file_count
                (t ++ [ListObjects (date_prefix self date)]) Hlim Hfiles)
      as [-> Hlen].
    rewrite (no_limit_never_reached _ _ Hlim).
    edestruct IH as (fc' & t' & -> & Hlen' & Hf & Hp).
    { intros d Hd. apply Hserved. now right. }
    exists fc', t'. unfold range_keys in *. cbn [flat_map].
    rewrite (listing_served date response Hlist).
    unfold frames_of in *. rewrite omap_app, !length_app, Hlen, Hlen'.
    split; [now rewrite <- app_assoc|]. split; [reflexivity|].
    rewrite Hf, Hp, !fetched_app, !printed_app, fetched_gets, printed_gets.
    simpl. rewrite !app_nil_r, <- app_assoc. auto.
Qed.

(** X4.  Without a file limit and with every listing and every file of the
    range served, the load fetches exactly the keys ending in [.csv.gz] of
    the range, by date and then in listing order, prints nothing, and
    returns the concatenation of their frames in that order (the empty frame
    when there is no such key); the result has as many rows as the frames
    together. *)
Theorem load_concatenates_in_order (start_date end_date : datetime)
  (limit : option Z) (t : trace) (dates : list datetime) :
  date_range start_date end_date = inr dates ->
  no_limit limit ->
  all_served self lib dates ->
  let out := get_data_for_date_range self lib start_date end_date limit t in
  let frames := frames_of self lib (range_keys self dates) in
  exists df,
    out.1 = inr df
    /\ df = match frames with
            | [] => empty_frame
            | _ :: _ => concat (common_dtype lib) frames
            end
    /\ nrows df = sum_list (map nrows frames)
    /\ length frames = length (range_keys self dates)
    /\ fetched out.2 = fetched t ++ range_keys self dates
    /\ printed out.2 = printed t.
Proof.
  intros Hdates Hlim Hserved. cbv zeta.
  rewrite get_data_for_date_range_run, Hdates.
  destruct (process_dates_all limit dates [] 0 t Hlim Hserved)
    as (fc' & t' & -> & Hlen & Hf & Hp).
  cbn [app fst snd].
  eexists. split; [reflexivity|]. split; [reflexivity|].
  split; [|auto].
  now destruct (frames_of self lib (range_keys self dates)).
Qed.

(** *** Ranges without dates *)

(** X5.  When [start_date] is after [end_date] the load makes no call at
    all and returns the empty frame without printing. *)
Theorem reversed_range_reads_nothing (start_date end_date : datetime)
  (limit : option Z) (t : trace) :
  le start_date end_date = false ->
  get_data_for_date_range self lib start_date end_date limit t
  = (inr empty_frame, t).
Proof.
  intros Hle. rewrite get_data_for_date_range_run.
  unfold date_range.
  assert (date_loop (date_fuel start_date end_date) start_date end_date []
          = Some (inr [])) as ->
    by (destruct (date_fuel start_date end_date); simpl; now rewrite Hle).
  reflexivity.
Qed.

Lemma date_loop_overflow (n : nat) :
  forall (fuel : nat) (current end_date : datetime) (date_list : list datetime),
    (n < fuel)%nat ->
    0 <= ordinal current ->
    ordinal current + Z.of_nat n = MAXORDINAL ->
    (forall k, (k <= n)%nat -> le (plus_days current (Z.of_nat k)) end_date = true) ->
    date_loop fuel current end_date date_list = Some (inl OverflowError).
Proof.
  induction n as [|n IH]; intros fuel current end_date date_list Hfuel H0 Hmax Hin.
  - destruct fuel as [|fuel]; [lia|].
    pose proof (Hin 0%nat ltac:(lia)) as Hcur. simpl in Hcur.
    rewrite plus_days_0 in Hcur. simpl. rewrite Hcur.
    unfold add_day.
    replace (ordinal current + 1 <=? MAXORDINAL) with false
      by (symmetry; apply Z.leb_gt; lia).
    now rewrite andb_false_r.
  - destruct fuel as [|fuel]; [lia|].
    pose proof (Hin 0%nat ltac:(lia)) as Hcur. simpl in Hcur.
    rewrite plus_days_0 in Hcur. simpl. rewrite Hcur.
    unfold add_day.
    replace ((1 <=? ordinal current + 1) && (ordinal current + 1 <=? MAXORDINAL))
      with true by (symmetry; apply andb_true_intro; split; lia).
    fold (plus_days current 1).
    apply IH; [lia | simpl; lia | simpl; lia |].
    intros k Hk. rewrite plus_days_plus.
    replace (1 + Z.of_nat k) with (Z.of_nat (S k)) by lia. apply Hin. lia.
Qed.

(** X6.  A range that reaches the last day a [datetime] can hold
    (9999-12-31) cannot be loaded: stepping past that day raises
    [OverflowError] while the list of dates is built, so the load makes no
    call, prints the error and returns the empty frame. *)
Theorem last_day_range_loads_nothing (start_date end_date : datetime)
  (limit : option Z) (t : trace) :
  valid start_date -> valid end_date ->
  le start_date end_date = true ->
  ordinal start_date + delta_days start_date end_date = MAXORDINAL ->
  get_data_for_date_range self lib start_date end_date limit t
  = (inr empty_frame,
     t ++ [Print ("Error getting data for date range: "
                  +:+ str_exn lib OverflowError)]).
Proof.
  intros [Hso Hsm] [Heo Hem] Hle Hmax.
  destruct (range_bounds start_date end_date Hsm Hem Hle)
    as (Hpos & Hfuel & Hin & _).
  rewrite get_data_for_date_range_run. unfold date_range.
  rewrite (date_loop_overflow (Z.to_nat (delta_days start_date end_date)));
    [reflexivity | | lia | lia |].
  - pose proof (delta_days_eq start_date end_date Hsm Hem) as Hd.
    unfold date_fuel.
    destruct (micros start_date <=? micros end_date); lia.
  - intros k Hk. apply Hin. lia.
Qed.

(** *** The catalogue *)















End Client.

(** X2, at a limit of one file over two days with a file each. *)
Lemma limit_bounds_fetches_witness :
  Z.of_nat (length (fetched
     (get_data_for_date_range Examples.bucket_two_days Examples.lib
        Examples.jan2 Examples.jan3 (Some 1) []).2))
  <= Z.of_nat (length (fetched [])) + 1.
Proof.
  apply (limit_bounds_fetches Examples.bucket_two_days Examples.lib
           Examples.jan2 Examples.jan3 1 []).
  lia.
Defined.

(** X3, at the same load. *)
Lemma fetches_leading_csv_keys_witness :
  exists ks,
    ks `prefix_of` range_keys Examples.bucket_two_days
                     [Examples.jan2; Examples.jan3]
    /\ fetched (get_data_for_date_range Examples.bucket_two_days Examples.lib
                  Examples.jan2 Examples.jan3 (Some 1) []).2
       = fetched [] ++ ks.
Proof.
  apply (fetches_leading_csv_keys Examples.bucket_two_days Examples.lib
           Examples.jan2 Examples.jan3 (Some 1) []
           [Examples.jan2; Examples.jan3]).
  vm_compute. reflexivity.
Defined.

(** X4, at two days with a file each and no limit. *)
Lemma load_concatenates_in_order_witness :
  let out := get_data_for_date_range Examples.bucket_two_days Examples.lib
               Examples.jan2 Examples.jan3 None [] in
  let frames := frames_of Examples.bucket_two_days Examples.lib
                  (range_keys Examples.bucket_two_days
                     [Examples.jan2; Examples.jan3]) in
  exists df,
    out.1 = inr df
    /\ df = match frames with
            | [] => empty_frame
            | _ :: _ => concat Examples.common_dtype frames
            end
    /\ nrows df = sum_list (map nrows frames)
    /\ length frames
       = length (range_keys Examples.bucket_two_days
                   [Examples.jan2; Examples.jan3])
    /\ fetched out.2
       = fetched [] ++ range_keys Examples.bucket_two_days
                         [Examples.jan2; Examples.jan3]
    /\ printed out.2 = printed [].
Proof.
  apply (load_concatenates_in_order Examples.bucket_two_days Examples.lib
           Examples.jan2 Examples.jan3 None []
           [Examples.jan2; Examples.jan3]).
  - vm_compute. reflexivity.
  - left. reflexivity.
  - intros d Hd.
    apply elem_of_cons in Hd as [->|Hd];
      [|apply list_elem_of_singleton in Hd as ->].
    + eexists. split; [vm_compute; reflexivity|].
      intros key ->%list_elem_of_singleton _. eexists. vm_compute. reflexivity.
    + eexists. split; [vm_compute; reflexivity|].
      intros key ->%list_elem_of_singleton _. eexists. vm_compute. reflexivity.
Defined.

(** X5, at the range from 2024-01-03 back to 2024-01-02. *)
Lemma reversed_range_reads_nothing_witness :
  get_data_for_date_range Examples.bucket_two_days Examples.lib
    Examples.jan3 Examples.jan2 None []
  = (inr empty_frame, []).
Proof.
  apply (reversed_range_reads_nothing Examples.bucket_two_days Examples.lib
           Examples.jan3 Examples.jan2 None []).
  reflexivity.
Defined.

(** X6, at the one-day range 9999-12-31. *)
Lemma last_day_range_loads_nothing_witness :
  get_data_for_date_range Examples.bucket_two_days Examples.lib
    (mkDatetime 3652059 0) (mkDatetime 3652059 0) None []
  = (inr empty_frame,
     [] ++ [Print ("Error getting data for date range: "
                   +:+ str_exn Examples.lib OverflowError)]).
Proof.
  apply (last_day_range_loads_nothing Examples.bucket_two_days Examples.lib
           (mkDatetime 3652059 0) (mkDatetime 3652059 0) None []).
  - unfold valid, MAXORDINAL, DAY_US. simpl. lia.
  - unfold valid, MAXORDINAL, DAY_US. simpl. lia.
  - reflexivity.
  - vm_compute. reflexivity.
Defined.



End LoadFacts.

(** ** Dates, numerals and partition prefixes *)

Module CalendarFacts.

Import PyStr PyDate Calendar Py S3 PyStrFacts.

Lemma month_day_checked :
  forallb (fun k => month_day_ok true (Z.of_nat k) && month_day_ok false (Z.of_nat k))
          (seq 0 365) = true.
Proof. vm_compute. reflexivity. Qed.

Lemma month_day_in_year (leapyear : bool) (n : Z) :
  0 <= n < 365 -> month_day_ok leapyear n = true.
Proof.
  intros Hn. pose proof month_day_checked as Hall.
  rewrite forallb_forall in Hall.
  specialize (Hall (Z.to_nat n)).
  rewrite Z2Nat.id in Hall by lia.
  assert (In (Z.to_nat n) (seq 0 365)) as Hin by (apply in_seq; lia).
  apply Hall in Hin. apply andb_prop in Hin as [Ht Hf].
  now destruct leapyear.
Qed.

Lemma is_leap_parts (n400 n100 n4 n1 : Z) :
  0 <= n400 -> 0 <= n100 <= 3 -> 0 <= n4 <= 24 -> 0 <= n1 <= 3 ->
  is_leap (n400 * 400 + 1 + n100 * 100 + n4 * 4 + n1)
  = (n1 =? 3) && (negb (n4 =? 24) || (n100 =? 3)).
Proof.
  intros H400 H100 H4 H1. unfold is_leap.
  set (y := n400 * 400 + 1 + n100 * 100 + n4 * 4 + n1).
  assert (y mod 4 = (n1 + 1) mod 4) as E4.
  { unfold y. replace (n400 * 400 + 1 + n100 * 100 + n4 * 4 + n1)
      with ((n1 + 1) + (n400 * 100 + n100 * 25 + n4) * 4) by lia.
    apply Z.mod_add. lia. }
  assert (y mod 100 = (n4 * 4 + n1 + 1) mod 100) as E100.
  { unfold y. replace (n400 * 400 + 1 + n100 * 100 + n4 * 4 + n1)
      with ((n4 * 4 + n1 + 1) + (n400 * 4 + n100) * 100) by lia.
    apply Z.mod_add. lia. }
  assert (y mod 400 = (n100 * 100 + n4 * 4 + n1 + 1) mod 400) as E400.
  { unfold y. replace (n400 * 400 + 1 + n100 * 100 + n4 * 4 + n1)
      with ((n100 * 100 + n4 * 4 + n1 + 1) + n400 * 400) by lia.
    apply Z.mod_add. lia. }
  rewrite E4, E100, E400. clear E4 E100 E400 y.
  assert (n1 = 0 \/ n1 = 1 \/ n1 = 2 \/ n1 = 3) as [->|[->|[->| ->]]] by lia;
    try reflexivity.
  change ((3 + 1) mod 4 =? 0) with true. cbn [andb].
  destruct (n4 =? 24) eqn:E24.
  - apply Z.eqb_eq in E24. subst n4.
    change ((24 * 4 + 3 + 1) mod 100 =? 0) with true. cbn [negb orb].
    assert (n100 = 0 \/ n100 = 1 \/ n100 = 2 \/ n100 = 3)
      as [->|[->|[->| ->]]] by lia; reflexivity.
  - apply Z.eqb_neq in E24. cbn [negb orb].
    rewrite Z.mod_small by lia.
    replace (n4 * 4 + 3 + 1 =? 0) with false by (symmetry; apply Z.eqb_neq; lia).
    reflexivity.
Qed.

Lemma days_before_year_parts (n400 n100 n4 n1 : Z) :
  0 <= n400 -> 0 <= n100 <= 3 -> 0 <= n4 <= 24 -> 0 <= n1 <= 3 ->
  days_before_year (n400 * 400 + 1 + n100 * 100 + n4 * 4 + n1)
  = n400 * 146097 + n100 * 36524 + n4 * 1461 + n1 * 365.
Proof.
  intros H400 H100 H4 H1. unfold days_before_year.
  replace (n400 * 400 + 1 + n100 * 100 + n4 * 4 + n1 - 1)
    with (n400 * 400 + n100 * 100 + n4 * 4 + n1) by lia.
  set (y := n400 * 400 + n100 * 100 + n4 * 4 + n1).
  assert (y / 4 = n400 * 100 + n100 * 25 + n4) as ->.
  { symmetry. apply (Z.div_unique_pos _ _ _ n1); unfold y; lia. }
  assert (y / 100 = n400 * 4 + n100) as ->.
  { symmetry. apply (Z.div_unique_pos _ _ _ (n4 * 4 + n1)); unfold y; lia. }
  assert (y / 400 = n400) as ->.
  { symmetry. apply (Z.div_unique_pos _ _ _ (n100 * 100 + n4 * 4 + n1)); unfold y; lia. }
  unfold y. lia.
Qed.

Lemma ord2ymd_unfold (n : Z) :
  ord2ymd n =
    let n400 := (n - 1) / DI400Y in
    let r1 := (n - 1) mod DI400Y in
    let n100 := r1 / DI100Y in
    let r2 := r1 mod DI100Y in
    let n4 := r2 / DI4Y in
    let r3 := r2 mod DI4Y in
    let n1 := r3 / 365 in
    let r4 := r3 mod 365 in
    let year := n400 * 400 + 1 + n100 * 100 + n4 * 4 + n1 in
    if (n1 =? 4) || (n100 =? 4) then (year - 1, 12, 31)
    else
      let md := month_day ((n1 =? 3) && (negb (n4 =? 24) || (n100 =? 3))) r4 in
      (year, md.1, md.2).
Proof.
  unfold ord2ymd, month_day. cbv zeta.
  destruct (_ || _); [reflexivity|].
  destruct (_ <? _); reflexivity.
Qed.

Lemma ord2ymd_spec (n : Z) :
  1 <= n <= MAXORDINAL ->
  let '(y, m, d) := ord2ymd n in
  1 <= y <= 9999 /\ 1 <= m <= 12 /\ 1 <= d <= days_in_month y m
  /\ ymd2ord y m d = n.
Proof.
  intros Hn. rewrite ord2ymd_unfold. cbv zeta.
  unfold MAXORDINAL, DI400Y, DI100Y, DI4Y in *.
  pose proof (Z.div_mod (n - 1) 146097 ltac:(lia)) as E1.
  pose proof (Z.mod_pos_bound (n - 1) 146097 ltac:(lia)) as B1.
  set (n400 := (n - 1) / 146097) in *. set (r1 := (n - 1) mod 146097) in *.
  pose proof (Z.div_mod r1 36524 ltac:(lia)) as E2.
  pose proof (Z.mod_pos_bound r1 36524 ltac:(lia)) as B2.
  set (n100 := r1 / 36524) in *. set (r2 := r1 mod 36524) in *.
  pose proof (Z.div_mod r2 1461 ltac:(lia)) as E3.
  pose proof (Z.mod_pos_bound r2 1461 ltac:(lia)) as B3.
  set (n4 := r2 / 1461) in *. set (r3 := r2 mod 1461) in *.
  pose proof (Z.div_mod r3 365 ltac:(lia)) as E4.
  pose proof (Z.mod_pos_bound r3 365 ltac:(lia)) as B4.
  set (n1 := r3 / 365) in *. set (r4 := r3 mod 365) in *.
  clearbody n400 r1 n100 r2 n4 r3 n1 r4.
  assert (0 <= n400 <= 24) as H400 by lia.
  assert (0 <= n100 <= 4) as H100 by lia.
  assert (0 <= n4 <= 24) as H4 by lia.
  assert (0 <= n1 <= 4) as H1 by lia.
  destruct ((n1 =? 4) || (n100 =? 4)) eqn:Hb.
  - (* the last day of a leap year *)
    assert (n1 = 4 /\ n100 <= 3 /\ n4 <= 23 /\ r4 = 0
            \/ n100 = 4 /\ n4 = 0 /\ n1 = 0 /\ r4 = 0) as Hcase.
    { apply orb_prop in Hb as [Hb|Hb]; apply Z.eqb_eq in Hb; lia. }
    replace (n400 * 400 + 1 + n100 * 100 + n4 * 4 + n1 - 1)
      with (n400 * 400 + 1 + (if n1 =? 4 then n100 else 3) * 100
            + (if n1 =? 4 then n4 else 24) * 4 + 3)
      by (destruct Hcase as [(-> & _)|(-> & -> & -> & _)]; simpl; lia).
    set (a100 := if n1 =? 4 then n100 else 3).
    set (a4 := if n1 =? 4 then n4 else 24).
    assert (0 <= a100 <= 3 /\ 0 <= a4 <= 24
            /\ (a4 <> 24 \/ a100 = 3)
            /\ n - 1 = n400 * 146097 + a100 * 36524 + a4 * 1461 + 3 * 365 + 365)
      as (Ha100 & Ha4 & Hleap & Hn0).
    { unfold a100, a4.
      destruct Hcase as [(-> & ? & ? & ->)|(-> & -> & -> & ->)]; simpl; lia. }
    clearbody a100 a4.
    pose proof (is_leap_parts n400 a100 a4 3 ltac:(lia) Ha100 Ha4 ltac:(lia))
      as Hl.
    pose proof (days_before_year_parts n400 a100 a4 3 ltac:(lia) Ha100 Ha4
                  ltac:(lia)) as Hd.
    assert (is_leap (n400 * 400 + 1 + a100 * 100 + a4 * 4 + 3) = true) as Hl'.
    { rewrite Hl. simpl.
      destruct (a4 =? 24) eqn:E; [|reflexivity].
      apply Z.eqb_eq in E. simpl. apply Z.eqb_eq. lia. }
    split; [lia|]. split; [lia|].
    unfold days_in_month, ymd2ord, days_before_month. rewrite Hd, Hl'.
    simpl. lia.
  - apply orb_false_elim in Hb as [Hb1 Hb2].
    apply Z.eqb_neq in Hb1, Hb2.
    pose proof (is_leap_parts n400 n100 n4 n1 ltac:(lia) ltac:(lia) H4
                  ltac:(lia)) as Hl.
    pose proof (days_before_year_parts n400 n100 n4 n1 ltac:(lia) ltac:(lia) H4
                  ltac:(lia)) as Hd.
    set (leapyear := (n1 =? 3) && (negb (n4 =? 24) || (n100 =? 3))) in *.
    pose proof (month_day_in_year leapyear r4 B4) as Hmd.
    unfold month_day_ok in Hmd.
    destruct (month_day leapyear r4) as [m d]. cbn [fst snd].
    repeat (apply andb_prop in Hmd as [Hmd ?]).
    unfold days_in_month, ymd2ord, days_before_month. rewrite Hd, Hl.
    assert ((if (m =? 2) && leapyear then 29 else DAYS_IN_MONTH m)
            = DAYS_IN_MONTH m + (if (m =? 2) && leapyear then 1 else 0)) as ->.
    { destruct (m =? 2) eqn:E2m; [apply Z.eqb_eq in E2m; subst m|];
        destruct leapyear; simpl; lia. }
    split; [lia|]. split; [lia|]. split; lia.
Qed.

(** *** Numerals *)

Lemma partition_char_cons (c x : ascii) (s : string) :
  partition (String c "") (String x s) =
    if Ascii.eqb c x then Some ("", s)
    else match partition (String c "") s with
         | Some (a, b) => Some (String x a, b)
         | None => None
         end.
Proof.
  cbn [partition startswith]. destruct (Ascii.eqb c x); reflexivity.
Qed.

Lemma partition_char_nil (c : ascii) : partition (String c "") "" = None.
Proof. reflexivity. Qed.

Lemma partition_char_app (c : ascii) (a r : string) :
  partition (String c "") a = None ->
  partition (String c "") (a +:+ String c r) = Some (a, r).
Proof.
  induction a as [|x a IH]; intros Ha.
  - rewrite app_nil_l, partition_char_cons. now rewrite Ascii.eqb_refl.
  - rewrite partition_char_cons in Ha. rewrite app_cons, partition_char_cons.
    destruct (Ascii.eqb c x); [discriminate|].
    destruct (partition (String c "") a) as [[? ?]|]; [discriminate|].
    now rewrite IH.
Qed.

Lemma partition_char_None_app (c : ascii) (a b : string) :
  partition (String c "") a = None -> partition (String c "") b = None ->
  partition (String c "") (a +:+ b) = None.
Proof.
  induction a as [|x a IH]; intros Ha Hb; [now rewrite app_nil_l|].
  rewrite partition_char_cons in Ha. rewrite app_cons, partition_char_cons.
  destruct (Ascii.eqb c x); [discriminate|].
  destruct (partition (String c "") a) as [[? ?]|]; [discriminate|].
  now rewrite IH.
Qed.

Lemma all_digits_no_char (c : ascii) (s : string) :
  digit_value c = None -> all_digits s = true ->
  partition (String c "") s = None.
Proof.
  intros Hc. induction s as [|x s IH]; [reflexivity|].
  simpl all_digits. rewrite partition_char_cons.
  destruct (digit_value x) eqn:Hx; [|discriminate].
  intros Hs. destruct (Ascii.eqb_spec c x) as [->|_]; [congruence|].
  now rewrite IH.
Qed.

Lemma all_digits_uint (u : Decimal.uint) :
  all_digits (NilEmpty.string_of_uint u) = true.
Proof. induction u; simpl; auto. Qed.

Lemma int_digits_uint (u : Decimal.uint) (acc : Z) (after_digit : bool) :
  u <> Decimal.Nil \/ after_digit = true ->
  int_digits acc after_digit (NilEmpty.string_of_uint u)
  = Some (uint_value acc u).
Proof.
  revert acc after_digit.
  induction u as [|u IH|u IH|u IH|u IH|u IH|u IH|u IH|u IH|u IH|u IH];
    intros acc b Hb;
    [destruct Hb as [Hb| ->]; [congruence | reflexivity]
    | simpl; apply IH; now right ..].
Qed.

Lemma of_uint_acc_value (u : Decimal.uint) (p : positive) :
  Z.pos (Pos.of_uint_acc u p) = uint_value (Z.pos p) u.
Proof.
  revert p.
  induction u as [|u IH|u IH|u IH|u IH|u IH|u IH|u IH|u IH|u IH|u IH];
    intros p; simpl; [reflexivity | rewrite IH; f_equal; lia ..].
Qed.

Lemma of_uint_value (u : Decimal.uint) : Z.of_uint u = uint_value 0 u.
Proof.
  unfold Z.of_uint.
  induction u as [|u IH|u IH|u IH|u IH|u IH|u IH|u IH|u IH|u IH|u IH];
    simpl; [reflexivity | exact IH | apply of_uint_acc_value ..].
Qed.

Lemma str_of_int_uint (n : Z) :
  0 <= n ->
  exists u, u <> Decimal.Nil
    /\ str_of_int n = NilEmpty.string_of_uint u
    /\ uint_value 0 u = n.
Proof.
  intros Hn. unfold str_of_int.
  destruct n as [|p|p]; [| |lia].
  - exists (Decimal.D0 Decimal.Nil). repeat split; discriminate.
  - pose proof (DecimalZ.of_to (Z.pos p)) as Hof.
    change (Z.of_uint (Pos.to_uint p) = Z.pos p) in Hof.
    rewrite of_uint_value in Hof.
    change (Z.to_int (Z.pos p)) with (Decimal.Pos (Pos.to_uint p)).
    exists (Pos.to_uint p).
    assert (Pos.to_uint p <> Decimal.Nil) as Hnil
      by (intros E; rewrite E in Hof; discriminate).
    split; [exact Hnil|]. split; [|exact Hof].
    unfold NilZero.string_of_int, NilZero.string_of_uint.
    now destruct (Pos.to_uint p).
Qed.

Lemma all_digits_str_of_int (n : Z) : 0 <= n -> all_digits (str_of_int n) = true.
Proof.
  intros Hn. destruct (str_of_int_uint n Hn) as (u & _ & -> & _).
  apply all_digits_uint.
Qed.

Lemma digit_not_space (c : ascii) (v : Z) :
  digit_value c = Some v -> isspace c = false.
Proof.
  destruct c as [[] [] [] [] [] [] [] []]; vm_compute; congruence.
Qed.

Lemma lstrip_digits (s : string) :
  all_digits s = true -> lstrip s = s.
Proof.
  destruct s as [|c s]; [reflexivity|]. simpl.
  destruct (digit_value c) eqn:Hc; [|discriminate].
  now rewrite (digit_not_space c _ Hc).
Qed.

Lemma rstrip_digits (s : string) :
  all_digits s = true -> rstrip s = s.
Proof.
  induction s as [|c s IH]; [reflexivity|]. simpl.
  destruct (digit_value c) eqn:Hc; [|discriminate].
  intros Hs. rewrite (IH Hs), (digit_not_space c _ Hc). now destruct s.
Qed.

(** [int] reads back what [str] prints, with zeros put in front or not. *)
Lemma int_of_str_digits (s : string) :
  all_digits s = true ->
  int_of_str s = int_digits 0 false s.
Proof.
  intros Hs. unfold int_of_str, strip.
  rewrite (lstrip_digits s Hs), (rstrip_digits s Hs).
  destruct s as [|c s]; [reflexivity|].
  simpl in Hs. destruct (digit_value c) eqn:Hc; [|discriminate].
  destruct c as [[] [] [] [] [] [] [] []]; try reflexivity;
    vm_compute in Hc; discriminate.
Qed.

Lemma int_of_str_of_int (n : Z) : 0 <= n -> int_of_str (str_of_int n) = Some n.
Proof.
  intros Hn. rewrite int_of_str_digits by now apply all_digits_str_of_int.
  destruct (str_of_int_uint n Hn) as (u & Hu & -> & <-).
  apply int_digits_uint. now left.
Qed.

Lemma all_digits_format_02d (n : Z) : 0 <= n -> all_digits (format_02d n) = true.
Proof.
  intros Hn. unfold format_02d.
  destruct (len (str_of_int n) <? 2)%nat;
    [rewrite app_cons, app_nil_l; simpl|]; now apply all_digits_str_of_int.
Qed.

Lemma int_of_str_format_02d (n : Z) : 0 <= n -> int_of_str (format_02d n) = Some n.
Proof.
  intros Hn. rewrite int_of_str_digits by now apply all_digits_format_02d.
  unfold format_02d.
  destruct (len (str_of_int n) <? 2)%nat.
  - rewrite app_cons, app_nil_l. simpl.
    destruct (str_of_int_uint n Hn) as (u & Hu & -> & <-).
    apply int_digits_uint. now right.
  - rewrite <- int_of_str_digits by now apply all_digits_str_of_int.
    now apply int_of_str_of_int.
Qed.

(** *** Keys under a date prefix *)

Lemma split_char_app (c : ascii) (a r : string) :
  partition (String c "") a = None ->
  split (String c "") (a +:+ String c r) = a :: split (String c "") r.
Proof.
  intros Ha. rewrite split_unfold by discriminate.
  now rewrite (partition_char_app c a r Ha).
Qed.

Lemma split_char_None (c : ascii) (a : string) :
  partition (String c "") a = None -> split (String c "") a = [a].
Proof. intros Ha. rewrite split_unfold by discriminate. now rewrite Ha. Qed.

Lemma partition_value_field (name digits : string) (n : Z) :
  partition "=" name = None -> all_digits digits = true ->
  int_of_str digits = Some n ->
  partition_value (name +:+ String "=" digits) = inr n.
Proof.
  intros Hname Hd Hn. unfold partition_value, rbind, index, int.
  rewrite (split_char_app "=" name digits Hname).
  rewrite (split_char_None "=" digits) by now apply all_digits_no_char.
  cbn [lookup list_lookup]. now rewrite Hn.
Qed.

Lemma days_in_month_le_31 (y m : Z) : 1 <= m <= 12 -> days_in_month y m <= 31.
Proof.
  intros Hm. unfold days_in_month.
  destruct ((m =? 2) && is_leap y); [lia|].
  assert (m = 1 \/ m = 2 \/ m = 3 \/ m = 4 \/ m = 5 \/ m = 6 \/ m = 7 \/ m = 8
          \/ m = 9 \/ m = 10 \/ m = 11 \/ m = 12) as Hcases by lia.
  repeat destruct Hcases as [->|Hcases]; try subst m; simpl; lia.
Qed.

Lemma datetime_ymd_valid (y m d : Z) :
  1 <= y <= 9999 -> 1 <= m <= 12 -> 1 <= d <= days_in_month y m ->
  datetime_ymd y m d = inr (mkDatetime (ymd2ord y m d) 0).
Proof.
  intros Hy Hm Hd. pose proof (days_in_month_le_31 y m Hm) as H31.
  unfold datetime_ymd, fits_c_int.
  repeat match goal with
         | |- context [?a <=? ?b] =>
             replace (a <=? b) with true by (symmetry; apply Z.leb_le; lia)
         end.
  reflexivity.
Qed.

Section Prefix.

Context (self : S3DataAccess).

(** X9.  The prefix under which the load looks for the files of a day is
    read back by the catalogue as that day: for a base path of the form
    [name/], any key that starts with the prefix of a date yields that date
    (at midnight) in [get_available_date_range]. *)
Theorem prefix_parses_back (d : datetime) (name file : string) :
  valid d ->
  base_path self = name +:+ "/" ->
  partition "/" name = None ->
  key_date (date_prefix self d +:+ file) = inr (Some (mkDatetime (ordinal d) 0)).
Proof.
  intros [Hord _] Hbase Hname.
  pose proof (ord2ymd_spec (ordinal d) Hord) as Hspec.
  unfold date_prefix, year, month, day.
  destruct (ord2ymd (ordinal d)) as [[y m] dd]. cbn [fst snd].
  destruct Hspec as (Hy & Hm & Hd & Hback).
  rewrite Hbase, !app_assoc. rewrite !app_cons, !app_nil_l.
  assert (forall label digits, partition "/" label = None ->
            all_digits digits = true ->
            partition "/" (label +:+ digits) = None) as Hfield.
  { intros label digits Hl Hdig. apply partition_char_None_app; [exact Hl|].
    now apply all_digits_no_char. }
  unfold key_date.
  rewrite (split_char_app "/" name _ Hname).
  assert (split "/" (String "y" (String "e" (String "a" (String "r" (String "="
            (str_of_int y +:+ String "/" (String "m" (String "o" (String "n"
            (String "t" (String "h" (String "=" (format_02d m +:+ String "/"
            (String "d" (String "a" (String "y" (String "=" (format_02d dd
            +:+ String "/" file))))))))))))))))))
          = ("year=" +:+ str_of_int y) :: ("month=" +:+ format_02d m)
            :: ("day=" +:+ format_02d dd) :: split "/" file) as ->.
  { change (String "y" (String "e" (String "a" (String "r" (String "="
              (str_of_int y +:+ String "/" ?r))))))
      with (("year=" +:+ str_of_int y) +:+ String "/" r).
    rewrite split_char_app
      by (apply Hfield; [reflexivity | apply all_digits_str_of_int; lia]).
    f_equal.
    change (String "m" (String "o" (String "n" (String "t" (String "h"
              (String "=" (format_02d m +:+ String "/" ?r)))))))
      with (("month=" +:+ format_02d m) +:+ String "/" r).
    rewrite split_char_app
      by (apply Hfield; [reflexivity | apply all_digits_format_02d; lia]).
    f_equal.
    change (String "d" (String "a" (String "y" (String "="
              (format_02d dd +:+ String "/" file)))))
      with (("day=" +:+ format_02d dd) +:+ String "/" file).
    rewrite split_char_app
      by (apply Hfield; [reflexivity | apply all_digits_format_02d; lia]).
    reflexivity. }
  cbn [length Nat.leb].
  unfold key_datetime, rbind, index. cbn [lookup list_lookup].
  change ("year=" +:+ str_of_int y) with ("year" +:+ String "=" (str_of_int y)).
  change ("month=" +:+ format_02d m) with ("month" +:+ String "=" (format_02d m)).
  change ("day=" +:+ format_02d dd) with ("day" +:+ String "=" (format_02d dd)).
  rewrite (partition_value_field "year" (str_of_int y) y eq_refl)
    by (try apply all_digits_str_of_int; try apply int_of_str_of_int; lia).
  rewrite (partition_value_field "month" (format_02d m) m eq_refl)
    by (try apply all_digits_format_02d; try apply int_of_str_format_02d; lia).
  rewrite (partition_value_field "day" (format_02d dd) dd eq_refl)
    by (try apply all_digits_format_02d; try apply int_of_str_format_02d; lia).
  rewrite (datetime_ymd_valid y m dd Hy Hm Hd), Hback. reflexivity.
Qed.

End Prefix.

(** X9, at 2024-01-02 under [csv-data/]. *)
Lemma prefix_parses_back_witness :
  key_date (date_prefix Examples.bucket_two_days Examples.jan2 +:+ "a.csv.gz")
  = inr (Some (mkDatetime (ordinal Examples.jan2) 0)).
Proof.
  apply (prefix_parses_back Examples.bucket_two_days Examples.jan2
           "csv-data" "a.csv.gz").
  - unfold valid, MAXORDINAL, DAY_US. simpl. lia.
  - reflexivity.
  - reflexivity.
Defined.

End CalendarFacts.

(** ** Laws of query execution *)

Module QueryLaws.

Import PyStr PyStrFacts Frame FrameFacts Py Query QueryFacts.

Lemma isspace_tolower (c : ascii) : isspace (tolower c) = isspace c.
Proof. destruct c as [[] [] [] [] [] [] [] []]; vm_compute; reflexivity. Qed.

Lemma tolower_idem (c : ascii) : tolower (tolower c) = tolower c.
Proof. destruct c as [[] [] [] [] [] [] [] []]; vm_compute; reflexivity. Qed.

Lemma lower_idem (s : string) : lower (lower s) = lower s.
Proof.
  induction s as [|c s IH]; simpl; [reflexivity|].
  now rewrite tolower_idem, IH.
Qed.

Lemma lower_lstrip (s : string) : lower (lstrip s) = lstrip (lower s).
Proof.
  induction s as [|c s IH]; simpl; [reflexivity|].
  rewrite isspace_tolower. now destruct (isspace c).
Qed.

Lemma lower_rstrip (s : string) : lower (rstrip s) = rstrip (lower s).
Proof.
  induction s as [|c s IH]; simpl; [reflexivity|].
  rewrite <- IH, isspace_tolower.
  destruct (rstrip s); simpl; [now destruct (isspace c) | reflexivity].
Qed.

Lemma lower_strip (s : string) : lower (strip s) = strip (lower s).
Proof. unfold strip. now rewrite lower_rstrip, lower_lstrip. Qed.




Section Engine.

Context {V : Type}.
Context (str_exn : exn -> string).
Context (eval_mask : DataFrame V -> string -> result (nat -> bool)).

Abbreviation heap := (gmap loc (DataFrame V)).





(** X11.  [execute_query] does not raise.  It returns a reference to a new
    object, and when it returns a message the frame is empty and the message
    is the rejection of a statement that is not a [select] or
    ["Error executing query: "] followed by the text of an exception. *)
Theorem query_error_gives_empty_frame (l : loc) (df : DataFrame V)
  (query : string) (h : heap) :
  h !! l = Some df ->
  exists r msg h',
    execute_query str_exn eval_mask l query h = (inr (r, msg), h')
    /\ h !! r = None
    /\ is_Some (h' !! r)
    /\ forall m, msg = Some m ->
         frame_at h' r = empty_frame
         /\ (m = "Query must start with SELECT"
             \/ exists e, m = "Error executing query: " +:+ str_exn e).
Proof.
  intros Hl. rewrite (execute_query_outcome str_exn eval_mask l df query h Hl).
  assert (forall (e : exn) (g : heap), exists r msg h',
            error_outcome str_exn e g = (inr (r, msg), h')
            /\ g !! r = None /\ is_Some (h' !! r)
            /\ forall m, msg = Some m ->
                 frame_at h' r = empty_frame
                 /\ (m = "Query must start with SELECT"
                     \/ exists e, m = "Error executing query: " +:+ str_exn e))
    as Herr.
  { intros e g. eexists _, _, _. split; [reflexivity|].
    split; [apply fresh_None|]. split; [rewrite lookup_insert_eq; eauto|].
    intros m [= <-]. unfold frame_at. rewrite lookup_insert_eq. eauto. }
  destruct (parse query) as [q|].
  - destruct (match q_columns q with
              | Wildcard => inr df
              | Columns names => getitem_list df names
              end) as [e|d]; [apply Herr|].
    cbv zeta. destruct (q_filter q) as [w|].
    + destruct (eval_mask d w) as [e|keep].
      * destruct (Herr e (<[fresh (dom h) := d]> h))
          as (r & msg & h' & Heq & Hnone & Hsome & Hmsg).
        exists r, msg, h'. split; [exact Heq|].
        split; [|split; [exact Hsome | exact Hmsg]].
        eapply lookup_weaken_None; [exact Hnone | apply insert_fresh_subseteq].
      * eexists _, _, _. split; [reflexivity|]. split.
        { eapply lookup_weaken_None; [apply fresh_None | apply insert_fresh_subseteq]. }
        split; [rewrite lookup_insert_eq; eauto | discriminate].
    + eexists _, _, _. split; [reflexivity|].
      split; [apply fresh_None|].
      split; [rewrite lookup_insert_eq; eauto | discriminate].
  - eexists _, _, _. split; [reflexivity|].
    split; [apply fresh_None|]. split; [rewrite lookup_insert_eq; eauto|].
    intros m [= <-]. unfold frame_at. rewrite lookup_insert_eq. eauto.
Qed.

(** X12.  Letter case in a statement is of no account: two statements that
    are equal once lowercased get the same answer. *)
Theorem query_case_insensitive (l : loc) (q1 q2 : string) (h : heap) :
  lower q1 = lower q2 ->
  execute_query str_exn eval_mask l q1 h = execute_query str_exn eval_mask l q2 h.
Proof.
  intros Heq.
  assert (lower (strip q1) = lower (strip q2)) as Hs
    by now rewrite !lower_strip, Heq.
  unfold execute_query. cbv zeta. now rewrite Hs.
Qed.

End Engine.


(** X11, at ["DROP TABLE orders"] on [orders]. *)
Lemma query_error_gives_empty_frame_witness :
  exists (r : loc) (msg : option string) (h' : gmap loc (DataFrame Z)),
    execute_query Examples.str_exn Examples.eval_mask 1%positive
      "DROP TABLE orders" {[ 1%positive := Examples.orders ]}
    = (inr (r, msg), h')
    /\ ({[ 1%positive := Examples.orders ]} : gmap loc (DataFrame Z)) !! r = None
    /\ is_Some (h' !! r)
    /\ forall m, msg = Some m ->
         frame_at h' r = empty_frame
         /\ (m = "Query must start with SELECT"
             \/ exists e, m = "Error executing query: " +:+ Examples.str_exn e).
Proof.
  apply (query_error_gives_empty_frame Examples.str_exn Examples.eval_mask
           1%positive Examples.orders "DROP TABLE orders"
           {[ 1%positive := Examples.orders ]}).
  apply lookup_singleton_eq.
Defined.

(** X12, at ["SELECT ID, Amount"] and ["select id, amount"]. *)
Lemma query_case_insensitive_witness :
  execute_query Examples.str_exn Examples.eval_mask 1%positive
    "SELECT ID, Amount" {[ 1%positive := Examples.orders ]}
  = execute_query Examples.str_exn Examples.eval_mask 1%positive
      "select id, amount" {[ 1%positive := Examples.orders ]}.
Proof.
  apply (query_case_insensitive Examples.str_exn Examples.eval_mask 1%positive
           "SELECT ID, Amount" "select id, amount"
           {[ 1%positive := Examples.orders ]}).
  vm_compute. reflexivity.
Defined.

End QueryLaws.

(** ** Laws of concatenation *)

Module ConcatLaws.

Import PyStr Frame FrameFacts ConcatFacts.

Section Concat.

Context {V : Type}.
Context (common_dtype : list (option string) -> string).





End Concat.


End ConcatLaws.

(** ** The sample *)

Module SampleFacts.

Import PyStr Frame FrameFacts Sample.

Section Head.

Context {V : Type}.

Lemma getitem_head (n : Z) (df : DataFrame V) (label : string) :
  getitem (head n df) label
  = (fun c => mkColumn (col_name c) (col_dtype c)
                (take (slice_stop n (nrows df)) (col_values c)))
    <$> getitem df label.
Proof.
  unfold getitem, head. cbn [columns].
  induction (columns df) as [|c cols IH]; simpl; [reflexivity|].
  destruct (String.eqb (col_name c) label); [reflexivity | exact IH].
Qed.

Lemma head_whole (n : Z) (df : DataFrame V) :
  wf df -> Z.of_nat (nrows df) <= n -> head n df = df.
Proof.
  intros [Hlen _] Hn. unfold head, slice_stop.
  replace (0 <=? n) with true by (symmetry; apply Z.leb_le; lia).
  replace (Nat.min (Z.to_nat n) (nrows df)) with (nrows df) by lia.
  destruct df as [k cols]. cbn [nrows columns] in *. f_equal.
  induction Hlen as [|c cols Hc _ IH]; simpl; [reflexivity|].
  rewrite IH. f_equal. destruct c as [name dtype values]. cbn in *.
  f_equal. apply take_ge. lia.
Qed.

Context (to_string : DataFrame V -> string).

(** X14.  The sample of a frame that has rows is the rendering of its
    leading rows: as many as asked for, all of them when the frame has
    fewer; every column is kept with its label and dtype, and the rows are
    as in the frame. *)
Theorem sample_shows_leading_rows (df : DataFrame V) (rows : Z) :
  wf df -> is_empty df = false -> 0 <= rows ->
  let s := head rows df in
  get_sample_data to_string df rows = to_string s
  /\ wf s
  /\ nrows s = Nat.min (Z.to_nat rows) (nrows df)
  /\ labels s = labels df
  /\ map col_dtype (columns s) = map col_dtype (columns df)
  /\ forall (i : nat) (label : string),
       (i < nrows s)%nat -> at_ s i label = at_ df i label.
Proof.
  intros [Hlen Hnd] Hne Hrows s.
  assert (slice_stop rows (nrows df) = Nat.min (Z.to_nat rows) (nrows df)) as Hk.
  { unfold slice_stop.
    now replace (0 <=? rows) with true by (symmetry; apply Z.leb_le; lia). }
  assert (labels s = labels df) as Hlabels.
  { unfold s, head, labels. cbn [columns]. rewrite map_map. reflexivity. }
  split; [unfold get_sample_data; now rewrite Hne|].
  split; [|split; [exact Hk|split; [exact Hlabels|split]]].
  - split.
    + unfold s, head. cbn [columns nrows]. apply Forall_forall.
      intros c' (c & -> & Hc)%list_elem_of_fmap. cbn [col_values].
      rewrite Forall_forall in Hlen. rewrite length_take, (Hlen c Hc), Hk. lia.
    + change (NoDup (labels s)). rewrite Hlabels. exact Hnd.
  - unfold s, head. cbn [columns]. rewrite map_map. reflexivity.
  - intros i label Hi. unfold at_. unfold s at 1. rewrite getitem_head.
    destruct (getitem df label) as [c|]; [|reflexivity]. simpl.
    apply lookup_take_lt. exact Hi.
Qed.

(** X15.  Asking for at least as many rows as the frame has gives the
    rendering of the whole frame. *)
Theorem sample_of_short_frame_is_whole (df : DataFrame V) (rows : Z) :
  wf df -> is_empty df = false -> Z.of_nat (nrows df) <= rows ->
  get_sample_data to_string df rows = to_string df.
Proof.
  intros Hwf Hne Hrows. unfold get_sample_data. rewrite Hne. cbv zeta.
  now rewrite head_whole.
Qed.

End Head.

(** X14, at two rows of [orders], rendered as the number of rows. *)
Lemma sample_shows_leading_rows_witness :
  let s := head 2 Examples.orders in
  get_sample_data (fun df => str_of_int (Z.of_nat (nrows df))) Examples.orders 2
  = str_of_int (Z.of_nat (nrows s))
  /\ wf s
  /\ nrows s = Nat.min (Z.to_nat 2) (nrows Examples.orders)
  /\ labels s = labels Examples.orders
  /\ map col_dtype (columns s) = map col_dtype (columns Examples.orders)
  /\ forall (i : nat) (label : string),
       (i < nrows s)%nat -> at_ s i label = at_ Examples.orders i label.
Proof.
  apply (sample_shows_leading_rows
           (fun df => str_of_int (Z.of_nat (nrows df))) Examples.orders 2).
  - apply (bool_decide_unpack (wf Examples.orders)). vm_compute. exact I.
  - reflexivity.
  - lia.
Defined.

(** X15, at five rows of [orders], which has three. *)
Lemma sample_of_short_frame_is_whole_witness :
  get_sample_data (fun df => str_of_int (Z.of_nat (nrows df))) Examples.orders 5
  = str_of_int (Z.of_nat (nrows Examples.orders)).
Proof.
  apply (sample_of_short_frame_is_whole
           (fun df => str_of_int (Z.of_nat (nrows df))) Examples.orders 5).
  - apply (bool_decide_unpack (wf Examples.orders)). vm_compute. exact I.
  - reflexivity.
  - simpl. lia.
Defined.

End SampleFacts.

(** ** Extraction of the statement from a model's answer *)

Module LLMFacts.

Import PyStr PyStrFacts Frame Py LLM Query QueryFacts.

Lemma partition_eq (sep s : string) :
  partition sep s =
    if startswith sep s then Some (EmptyString, drop_chars (len sep) s)
    else match s with
         | EmptyString => None
         | String c s' =>
             match partition sep s' with
             | Some (a, b) => Some (String c a, b)
             | None => None
             end
         end.
Proof. destruct s; reflexivity. Qed.

Lemma partition_at_start (sep rest : string) :
  partition sep (sep +:+ rest) = Some (EmptyString, rest).
Proof.
  rewrite partition_eq.
  assert (startswith sep (sep +:+ rest) = true) as Hs
    by (apply startswith_app; now exists rest).
  rewrite Hs. f_equal. f_equal.
  apply startswith_drop in Hs.
  clear -Hs. revert Hs. generalize (drop_chars (len sep) (sep +:+ rest)).
  induction sep as [|c sep IH]; intros r; rewrite ?app_nil_l, ?app_cons.
  - now intros ->.
  - intros [= H]. now apply IH.
Qed.

Lemma partition_open (pre rest : string) :
  no_backtick pre = true ->
  partition fence_open (pre +:+ fence_open +:+ rest) = Some (pre, rest).
Proof.
  induction pre as [|c pre IH]; intros Hpre.
  - rewrite app_nil_l. apply partition_at_start.
  - simpl in Hpre. apply andb_prop in Hpre as [Hc Hpre].
    rewrite app_cons, partition_eq.
    assert (startswith fence_open (String c (pre +:+ fence_open +:+ rest)) = false)
      as ->.
    { change fence_open with (String "`" (String "`" (String "`" (String "s"
        (String "q" (String "l" (String "010" ""))))))).
      cbn [startswith]. destruct (Ascii.eqb_spec "`" c) as [<-|_];
        [discriminate | reflexivity]. }
    now rewrite IH.
Qed.

Lemma partition_close (body post : string) :
  no_backtick body = true ->
  partition fence_close (body +:+ fence_close +:+ post) = Some (body, post).
Proof.
  induction body as [|c body IH]; intros Hbody.
  - rewrite app_nil_l. apply partition_at_start.
  - simpl in Hbody. apply andb_prop in Hbody as [Hc Hbody].
    rewrite app_cons, partition_eq.
    assert (startswith fence_close (String c (body +:+ fence_close +:+ post))
            = false) as ->.
    { change fence_close with (String "010" (String "`" (String "`"
        (String "`" ""))))%char.
      cbn [startswith]. destruct (Ascii.eqb "010" c); [|reflexivity].
      destruct body as [|c2 body].
      - rewrite app_nil_l, app_cons. reflexivity.
      - rewrite app_cons. simpl in Hbody.
        destruct (Ascii.eqb_spec c2 "`") as [->|Hne]; [discriminate|].
        destruct (Ascii.eqb_spec "`" c2) as [Heq|_]; [congruence | reflexivity]. }
    now rewrite IH.
Qed.

(** X16.  From an answer that holds a fenced block opened by three backticks
    and [sql], with no backtick before the block or inside it,
    [_extract_sql] returns what is between the fences, trimmed; the text
    around the block is dropped. *)
Theorem extract_fenced_block (pre body post : string) :
  no_backtick pre = true -> no_backtick body = true ->
  _extract_sql (pre +:+ fence_open +:+ body +:+ fence_close +:+ post)
  = strip body.
Proof.
  intros Hpre Hbody. unfold _extract_sql, search_sql_block.
  rewrite (partition_open pre _ Hpre).
  now rewrite (partition_close body post Hbody).
Qed.

Lemma capture_started (lines : list string) (acc : list string) :
  exists captured rest,
    map strip lines = captured ++ rest
    /\ capture_lines lines true acc = acc ++ captured
    /\ (forall i l, captured !! i = Some l -> (S i < length captured)%nat ->
                    endswith ";" l = false)
    /\ (rest <> [] -> exists l, last captured = Some l /\ endswith ";" l = true).
Proof.
  revert acc. induction lines as [|line lines IH]; intros acc.
  - exists [], []. simpl. rewrite List.app_nil_r.
    repeat split; [intros i l; now rewrite lookup_nil | congruence].
  - cbn [capture_lines map]. cbv zeta.
    replace (if starts_sql (strip line) then true else true) with true
      by now destruct (starts_sql (strip line)).
    cbn [andb]. destruct (endswith ";" (strip line)) eqn:He.
    + exists [strip line], (map strip lines). repeat split.
      * intros i l _ Hi. simpl in Hi. lia.
      * intros _. exists (strip line). now split.
    + destruct (IH (acc ++ [strip line])) as (captured & rest & Hm & Hc & Hmid & Hlast).
      exists (strip line :: captured), rest. split; [simpl; now rewrite Hm|].
      split; [now rewrite Hc, <- List.app_assoc|]. split.
      * intros [|i] l; simpl.
        -- now intros [= <-] _.
        -- intros Hl Hi. apply (Hmid i l Hl). lia.
      * intros Hrest. destruct (Hlast Hrest) as (l & Hl & Hend).
        exists l. split; [|exact Hend]. rewrite last_cons. now rewrite Hl.
Qed.

(** X17.  Without a fenced block, [_extract_sql] scans the trimmed lines of
    the answer: it skips lines until one starts with [SELECT] or [WITH]
    (letter case aside), captures from that line on, and stops after the
    first captured line that ends with a semicolon, or at the end. *)
Theorem extract_scans_lines (lines : list string) :
  exists skipped captured rest,
    map strip lines = skipped ++ captured ++ rest
    /\ capture_lines lines false [] = captured
    /\ Forall (fun l => starts_sql l = false) skipped
    /\ (captured = [] -> rest = [])
    /\ (forall first more, captured = first :: more -> starts_sql first = true)
    /\ (forall i l, captured !! i = Some l -> (S i < length captured)%nat ->
                    endswith ";" l = false)
    /\ (rest <> [] -> exists l, last captured = Some l /\ endswith ";" l = true).
Proof.
  induction lines as [|line lines IH].
  - exists [], [], []. simpl.
    repeat split; [constructor | discriminate | | congruence].
    intros i l. now rewrite lookup_nil.
  - cbn [capture_lines map]. cbv zeta.
    destruct (starts_sql (strip line)) eqn:Hs.
    + cbn [andb app]. destruct (endswith ";" (strip line)) eqn:He.
      * exists [], [strip line], (map strip lines).
        repeat split; [constructor | discriminate | | | ].
        -- now intros first more [= <- _].
        -- intros i l _ Hi. simpl in Hi. lia.
        -- intros _. exists (strip line). now split.
      * destruct (capture_started lines [strip line])
          as (captured & rest & Hm & Hc & Hmid & Hlast).
        exists [], (strip line :: captured), rest.
        split; [simpl; now rewrite Hm|]. split; [exact Hc|].
        split; [constructor|]. split; [discriminate|].
        split; [now intros first more [= <- _]|]. split.
        -- intros [|i] l; simpl.
           ++ now intros [= <-] _.
           ++ intros Hl Hi. apply (Hmid i l Hl). lia.
        -- intros Hrest. destruct (Hlast Hrest) as (l & Hl & Hend).
           exists l. split; [|exact Hend]. rewrite last_cons. now rewrite Hl.
    + cbn [andb].
      destruct IH as (skipped & captured & rest & Hm & Hc & Hsk & Hnil & Hfirst
                      & Hmid & Hlast).
      exists (strip line :: skipped), captured, rest.
      split; [simpl; now rewrite Hm|]. split; [exact Hc|].
      split; [now constructor|]. repeat split; assumption.
Qed.

Lemma capture_nothing (lines : list string) :
  Forall (fun l => starts_sql (strip l) = false) lines ->
  capture_lines lines false [] = [].
Proof.
  induction 1 as [|line lines Hl _ IH]; [reflexivity|].
  cbn [capture_lines]. cbv zeta. rewrite Hl. exact IH.
Qed.

(** X18.  An answer without a fenced block and without a line that starts
    with [SELECT] or [WITH] is returned as it is. *)
Theorem extract_plain_answer_unchanged (response : string) :
  search_sql_block response = None ->
  Forall (fun l => starts_sql (strip l) = false) (split newline response) ->
  _extract_sql response = response.
Proof.
  intros Hb Hl. unfold _extract_sql. rewrite Hb. cbv zeta.
  now rewrite capture_nothing.
Qed.

Lemma upper_char_W (c : ascii) (r : string) :
  startswith "W" (upper_char c +:+ r) = true -> tolower c = "w"%char.
Proof.
  destruct c as [[] [] [] [] [] [] [] []]; vm_compute; congruence.
Qed.

Lemma rstrip_cons (c : ascii) (s : string) :
  isspace c = false -> exists y, rstrip (String c s) = String c y.
Proof.
  intros Hc. simpl. destruct (rstrip s); rewrite ?Hc; eauto.
Qed.

Lemma with_is_not_select (first tail : string) :
  startswith "WITH" (upper first) = true ->
  startswith "select" (lower (strip (first +:+ tail))) = false.
Proof.
  destruct first as [|c first]; [discriminate|]. intros Hw.
  assert (tolower c = "w"%char) as Hc.
  { apply (upper_char_W c (upper first)).
    cbn [upper] in Hw. destruct (upper_char c +:+ upper first) as [|x r];
      [discriminate|].
    cbn [startswith] in *. destruct (Ascii.eqb "W" x); [reflexivity|discriminate]. }
  assert (isspace c = false) as Hsp.
  { rewrite <- QueryLaws.isspace_tolower. now rewrite Hc. }
  rewrite app_cons. unfold strip. cbn [lstrip]. rewrite Hsp.
  destruct (rstrip_cons c (first +:+ tail) Hsp) as [y ->].
  cbn [lower]. rewrite Hc. reflexivity.
Qed.

Section Engine.

Context {V : Type}.
Context (str_exn : exn -> string).
Context (eval_mask : DataFrame V -> string -> result (nat -> bool)).

Abbreviation heap := (gmap loc (DataFrame V)).

(** X19.  A statement that starts with [WITH] is extracted from the answer
    and then turned down: when the scan of the lines starts its capture at
    a line that begins with [WITH], [execute_query] answers the extracted
    statement with ["Query must start with SELECT"] and an empty frame. *)
Theorem with_statement_extracted_then_rejected (response first : string)
  (more : list string) (l : loc) (h : heap) :
  search_sql_block response = None ->
  capture_lines (split newline response) false [] = first :: more ->
  startswith "WITH" (upper first) = true ->
  execute_query str_exn eval_mask l (_extract_sql response) h
  = (inr (fresh (dom h), Some "Query must start with SELECT"),
     <[fresh (dom h) := empty_frame]> h).
Proof.
  intros Hb Hc Hw. unfold _extract_sql. rewrite Hb, Hc. cbv zeta.
  rewrite execute_query_parse. unfold parse. cbv zeta.
  assert (exists tail, join newline (first :: more) = first +:+ tail) as [tail ->].
  { destruct more as [|m more]; [exists ""; simpl; now rewrite app_nil_r|].
    rewrite join_cons. eauto. }
  now rewrite (with_is_not_select first tail Hw).
Qed.

End Engine.

(** X16, at an answer with a sentence before the block and one after it. *)
Lemma extract_fenced_block_witness :
  _extract_sql (("Here is the query:" +:+ newline) +:+ fence_open
                +:+ "  SELECT id FROM orders;" +:+ fence_close
                +:+ (newline +:+ "It lists the ids."))
  = strip "  SELECT id FROM orders;".
Proof.
  apply (extract_fenced_block ("Here is the query:" +:+ newline)
           "  SELECT id FROM orders;" (newline +:+ "It lists the ids.")).
  - vm_compute. reflexivity.
  - vm_compute. reflexivity.
Defined.

(** X18, at an answer that holds no statement. *)
Lemma extract_plain_answer_unchanged_witness :
  _extract_sql "I cannot answer that." = "I cannot answer that.".
Proof.
  apply (extract_plain_answer_unchanged "I cannot answer that.").
  - vm_compute. reflexivity.
  - apply (bool_decide_unpack
             (Forall (fun l => starts_sql (strip l) = false)
                     (split newline "I cannot answer that."))).
    vm_compute. exact I.
Defined.

(** X19, at a statement with a common table expression. *)
Lemma with_statement_extracted_then_rejected_witness :
  execute_query Examples.str_exn Examples.eval_mask 1%positive
    (_extract_sql "WITH t AS (SELECT id FROM orders) SELECT * FROM t;")
    {[ 1%positive := Examples.orders ]}
  = (inr (fresh (dom ({[ 1%positive := Examples.orders ]}
                        : gmap loc (DataFrame Z))),
          Some "Query must start with SELECT"),
     <[fresh (dom ({[ 1%positive := Examples.orders ]}
                     : gmap loc (DataFrame Z))) := empty_frame]>
       {[ 1%positive := Examples.orders ]}).
Proof.
  apply (with_statement_extracted_then_rejected Examples.str_exn
           Examples.eval_mask
           "WITH t AS (SELECT id FROM orders) SELECT * FROM t;"
           "WITH t AS (SELECT id FROM orders) SELECT * FROM t;" []
           1%positive {[ 1%positive := Examples.orders ]}).
  - vm_compute. reflexivity.
  - vm_compute. reflexivity.
  - vm_compute. reflexivity.
Defined.

End LLMFacts.

(** ** The routes *)

Module ApiFacts.

Import PyStr PyStrFacts PyDate Frame Py S3 LLM Load Api.

Lemma api_keys_after_post (CONFIG : Config) (data : ConfigRequest) (k : string) :
  api_keys (config_post CONFIG data).1 !! k
  = match c_api_keys data ≫= (fun keys => keys !! k) with
    | Some v => Some v
    | None => api_keys CONFIG !! k
    end.
Proof.
  destruct data as [p m b [keys|]]; cbn.
  - destruct p, m, b; cbn; unfold update; rewrite lookup_union;
      destruct (keys !! k), (api_keys CONFIG !! k); reflexivity.
  - destruct p, m, b; reflexivity.
Qed.

(** X20.  A [POST] to [/config] merges the API keys it brings into the
    stored ones: a key that is sent takes the value sent, every other key
    keeps its value, and no key is dropped.  The response carries the
    configuration as it is stored then, key values included. *)
Theorem config_post_merges_keys (CONFIG : Config) (data : ConfigRequest) :
  exists CONFIG',
    config_post CONFIG data = (CONFIG', ConfigSaved CONFIG')
    /\ forall k,
         api_keys CONFIG' !! k
         = match c_api_keys data ≫= (fun keys => keys !! k) with
           | Some v => Some v
           | None => api_keys CONFIG !! k
           end.
Proof.
  eexists. split; [reflexivity|]. intros k.
  apply (api_keys_after_post CONFIG data k).
Qed.

(** X21.  A [GET] of [/config] after a [POST] shows what the [POST] has
    stored, with the name of every API key, stored before or sent, and
    ["***"] in the place of each value. *)
Theorem config_get_after_post (CONFIG : Config) (data : ConfigRequest) :
  exists shown,
    config_get (config_post CONFIG data).1 = ConfigShown shown
    /\ default_provider shown
       = default (default_provider CONFIG) (c_provider data)
    /\ default_model shown = default (default_model CONFIG) (c_model data)
    /\ bucket_name shown
       = match c_bucket_name data with
         | Some b => Some b
         | None => bucket_name CONFIG
         end
    /\ forall k,
         api_keys shown !! k
         = if bool_decide (is_Some (c_api_keys data ≫= (fun keys => keys !! k))
                           \/ is_Some (api_keys CONFIG !! k))
           then Some "***" else None.
Proof.
  eexists. split; [reflexivity|].
  split; [destruct data as [[] [] [] []]; reflexivity|].
  split; [destruct data as [[] [] [] []]; reflexivity|].
  split; [destruct data as [[] [] [] []]; reflexivity|].
  intros k. pose proof (api_keys_after_post CONFIG data k) as Hk.
  transitivity ((fun _ : string => "***")
                <$> api_keys (config_post CONFIG data).1 !! k).
  { rewrite <- lookup_fmap. reflexivity. }
  rewrite Hk.
  destruct (c_api_keys data ≫= (fun keys => keys !! k)) as [v|];
    [rewrite bool_decide_eq_true_2 by (left; eauto); reflexivity|].
  destruct (api_keys CONFIG !! k) as [v|].
  - rewrite bool_decide_eq_true_2 by (right; eauto). reflexivity.
  - rewrite bool_decide_eq_false_2; [reflexivity|].
    intros [[? [=]]|[? [=]]].
Qed.

Lemma truthy_Some (s : option string) :
  truthy s = true -> exists c b, s = Some (String c b).
Proof. destruct s as [[|c b]|]; [discriminate | eauto | discriminate]. Qed.

Lemma supported_provider (provider_name : string) (api_key model : option string) :
  if supported provider_name
  then exists llm, get_provider provider_name api_key model = inr llm
  else get_provider provider_name api_key model = inl ValueError.
Proof.
  unfold supported, get_provider.
  destruct (String.eqb (lower provider_name) "bedrock"); [cbn; eauto|].
  destruct (String.eqb (lower provider_name) "openai"); [cbn; eauto|].
  destruct (String.eqb (lower provider_name) "gemini"); cbn; eauto.
Qed.

Section Handlers.

Context {V : Type}.
Context (lib : Library V).
Context (client_list : string -> string -> result (option (list string))).
Context (client_get : string -> string -> result bytes).
Context (str_cell : cell V -> string).
Context (to_string to_json : DataFrame V -> string).
Context (eval_mask : DataFrame V -> string -> result (nat -> bool)).
Context (strptime : string -> result datetime).
Context (now : datetime).
Context (strftime : datetime -> string).
Context (complete : provider -> string -> string -> string -> result string).
Context (explain : provider -> string -> string -> string -> result string).

(** *** [/available-dates] *)

(** X22.  [/available-dates] answers a storage that cannot be listed as it
    answers a bucket without objects: with status 404 and
    ["No data available in S3 bucket"]. *)
Theorem available_dates_outage_is_404 (CONFIG : Config) (bucket : string)
  (t : trace) :
  bucket_name CONFIG = Some bucket -> bucket <> "" ->
  (exists e, client_list bucket "csv-data/" = inl e)
  \/ client_list bucket "csv-data/" = inr None ->
  (available_dates lib client_list client_get strftime CONFIG t).1
  = inr (Error 404 "No data available in S3 bucket").
Proof.
  intros Hb Hne Hlist. unfold available_dates. rewrite Hb.
  destruct bucket as [|c b]; [congruence|].
  unfold bind, get_available_date_range, try_except, bind, list_objects_v2,
    new_access, print, ret. cbn [base_path s3_list].
  destruct Hlist as [[e ->]| ->]; reflexivity.
Qed.


(** *** [/query] *)

Abbreviation answer_ :=
  (answer lib client_list client_get str_cell to_string to_json eval_mask
     complete explain).
Abbreviation query_ :=
  (query lib client_list client_get str_cell to_string to_json eval_mask
     strptime now complete explain).

(** A storage that cannot be listed loads as the empty frame. *)
Lemma load_down (self : S3DataAccess) (start_date end_date : datetime)
  (limit : option Z) (t : trace) :
  (forall prefix, exists e, s3_list self prefix = inl e) ->
  exists t',
    get_data_for_date_range self lib start_date end_date limit t
    = (inr empty_frame, t')
    /\ fetched t' = fetched t.
Proof.
  intros Hdown.
  unfold get_data_for_date_range, try_except, bind, lift, print, ret.
  destruct (date_range start_date end_date) as [e|[|d dates]].
  - eexists. split; [reflexivity|].
    rewrite LoadFacts.fetched_app. cbn. now rewrite List.app_nil_r.
  - cbn. eauto.
  - cbn [process_dates]. unfold bind, list_objects_v2.
    destruct (Hdown (date_prefix self d)) as [e ->].
    eexists. split; [reflexivity|].
    rewrite !LoadFacts.fetched_app. cbn. now rewrite !List.app_nil_r.
Qed.

(** The checks of the request come to this. *)
Lemma query_checked (CONFIG : Config) (data : QueryRequest)
  (question bucket : string) (start_date end_date : datetime) (st : state) :
  q_question data = Some question ->
  bucket_name CONFIG = Some bucket -> bucket <> "" ->
  date_range_of strptime now data = inr (start_date, end_date) ->
  let provider_name := default (default_provider CONFIG) (q_provider data) in
  let model := default (default_model CONFIG) (q_model data) in
  query_ CONFIG data st
  = if String.eqb (lower provider_name) "bedrock" then
      answer_ question provider_name model bucket start_date end_date
        None st
    else if truthy (api_keys CONFIG !! lower provider_name) then
      answer_ question provider_name model bucket start_date end_date
        (api_keys CONFIG !! lower provider_name) st
    else (inr (Error 400 ("API key not configured for " +:+ provider_name)), st).
Proof.
  intros Hq Hb Hne Hd. cbv zeta. unfold query. rewrite Hq, Hb, Hd.
  destruct bucket as [|c b]; [congruence|].
  destruct (String.eqb (lower (default (default_provider CONFIG) (q_provider data)))
              "bedrock"); cbn [negb]; [reflexivity|].
  now destruct (truthy _).
Qed.

(** X24.  When the storage cannot be listed, a request to [/query] that
    passes the checks is answered with status 404 and
    ["No data available for the specified date range"]; no object is
    fetched and the model is not called. *)
Theorem query_outage_answers_404 (CONFIG : Config) (data : QueryRequest)
  (question bucket : string) (start_date end_date : datetime)
  (t : trace) (calls : list llm_call) :
  q_question data = Some question ->
  bucket_name CONFIG = Some bucket -> bucket <> "" ->
  date_range_of strptime now data = inr (start_date, end_date) ->
  (let provider_name := default (default_provider CONFIG) (q_provider data) in
   lower provider_name = "bedrock"
   \/ truthy (api_keys CONFIG !! lower provider_name) = true) ->
  (forall prefix, exists e, client_list bucket prefix = inl e) ->
  exists t',
    query_ CONFIG data (t, calls)
    = (inr (Error 404 "No data available for the specified date range"),
       (t', calls))
    /\ fetched t' = fetched t.
Proof.
  intros Hq Hb Hne Hd Hkey Hdown.
  rewrite (query_checked CONFIG data question bucket start_date end_date
             (t, calls) Hq Hb Hne Hd).
  assert (forall key,
            exists t',
              answer_ question
                (default (default_provider CONFIG) (q_provider data))
                (default (default_model CONFIG) (q_model data))
                bucket start_date end_date key (t, calls)
              = (inr (Error 404 "No data available for the specified date range"),
                 (t', calls))
              /\ fetched t' = fetched t) as Hanswer.
  { intros key. unfold answer, bind, on_s3. cbn [fst snd].
    destruct (load_down (new_access client_list client_get bucket)
                start_date end_date None t Hdown) as (t' & -> & Hf).
    exists t'. split; [reflexivity | exact Hf]. }
  cbv zeta in Hkey. destruct Hkey as [-> | ->]; [apply Hanswer|].
  destruct (String.eqb _ "bedrock"); apply Hanswer.
Qed.

(** X25.  A provider name that [get_provider] does not know is found out
    late.  Without an API key stored under the name the request is turned
    down for the missing key, before any call.  With one, the data are
    loaded first, and the answer is the 404 of an empty load or else status
    400 with ["Unsupported provider: "] and the name.  The model is not
    called either way. *)
Theorem query_unsupported_provider (CONFIG : Config) (data : QueryRequest)
  (question bucket : string) (start_date end_date : datetime) (st : state) :
  q_question data = Some question ->
  bucket_name CONFIG = Some bucket -> bucket <> "" ->
  date_range_of strptime now data = inr (start_date, end_date) ->
  let provider_name := default (default_provider CONFIG) (q_provider data) in
  supported provider_name = false ->
  let load :=
    get_data_for_date_range (new_access client_list client_get bucket) lib
      start_date end_date None st.1 in
  query_ CONFIG data st
  = if truthy (api_keys CONFIG !! lower provider_name) then
      match load.1 with
      | inr df =>
          (inr (if is_empty df
                then Error 404 "No data available for the specified date range"
                else Error 400 ("Unsupported provider: " +:+ provider_name)),
           (load.2, st.2))
      | inl e => (inl e, (load.2, st.2))
      end
    else (inr (Error 400 ("API key not configured for " +:+ provider_name)), st).
Proof.
  intros Hq Hb Hne Hd provider_name Hs load.
  rewrite (query_checked CONFIG data question bucket start_date end_date
             st Hq Hb Hne Hd). cbv zeta. fold provider_name.
  assert (String.eqb (lower provider_name) "bedrock" = false) as ->.
  { unfold supported in Hs.
    destruct (String.eqb (lower provider_name) "bedrock"); [discriminate|reflexivity]. }
  destruct (truthy (api_keys CONFIG !! lower provider_name)); [|reflexivity].
  unfold answer, bind, on_s3. fold load.
  destruct load as [[e|df] t']; cbn [fst snd]; [reflexivity|].
  destruct (is_empty df); [reflexivity|].
  pose proof (supported_provider provider_name
                (api_keys CONFIG !! lower provider_name)
                (Some (default (default_model CONFIG) (q_model data)))) as Hp.
  rewrite Hs in Hp. rewrite Hp. reflexivity.
Qed.

(** A query without a message: the statement starts with [select]. *)
Lemma run_query_ok (df results : DataFrame V) (sql_query : string)
  (error : option string) :
  run_query lib eval_mask df sql_query = (results, error) ->
  truthy error = false ->
  error = None /\ startswith "select" (lower (strip sql_query)) = true.
Proof.
  unfold run_query.
  rewrite (QueryFacts.execute_query_outcome (str_exn lib) eval_mask 1%positive
             df sql_query {[ 1%positive := df ]} (lookup_singleton_eq _ _)).
  assert (forall x, truthy (Some ("Error executing query: " +:+ x)) = true)
    as Herr by (intros x; now rewrite app_cons).
  destruct (Query.parse sql_query) as [q|] eqn:Hparse.
  - assert (startswith "select" (lower (strip sql_query)) = true) as Hsel.
    { unfold Query.parse in Hparse.
      destruct (startswith "select" (lower (strip sql_query)));
        [reflexivity | discriminate]. }
    destruct (match Query.q_columns q with
              | Query.Wildcard => inr df
              | Query.Columns names => getitem_list df names
              end) as [e|d].
    + unfold Query.error_outcome. intros [= _ <-]. now rewrite Herr.
    + cbv zeta. destruct (Query.q_filter q) as [w|].
      * destruct (eval_mask d w) as [e|keep].
        -- unfold Query.error_outcome. intros [= _ <-]. now rewrite Herr.
        -- intros [= _ <-]. auto.
      * intros [= _ <-]. auto.
  - intros [= _ <-]. discriminate.
Qed.

Lemma answer_gives_answer (question provider_name model bucket : string)
  (start_date end_date : datetime) (api_key : option string)
  (st st' : state) (q sql res expl : string) :
  answer_ question provider_name model bucket start_date end_date
    api_key st
  = (inr (Answer q sql res expl), st') ->
  q = question
  /\ supported provider_name = true
  /\ exists df llm text results,
       get_data_for_date_range (new_access client_list client_get bucket) lib
         start_date end_date None st.1 = (inr df, st'.1)
       /\ is_empty df = false
       /\ get_provider provider_name api_key (Some model) = inr llm
       /\ st'.2
          = st.2
            ++ [GenerateSql llm question
                  (Schema.get_schema_from_data str_cell df)
                  (Sample.get_sample_data to_string df 5);
                ExplainResults llm question sql (to_string results)]
       /\ complete llm question (Schema.get_schema_from_data str_cell df)
            (Sample.get_sample_data to_string df 5) = inr text
       /\ sql = _extract_sql text
       /\ startswith "select" (lower (strip sql)) = true
       /\ run_query lib eval_mask df sql = (results, None)
       /\ res = to_json results
       /\ explain llm question sql (to_string results) = inr expl.
Proof.
  unfold answer, bind, on_s3.
  destruct (get_data_for_date_range _ lib start_date end_date None st.1)
    as [[e|df] t'] eqn:Hload; [discriminate|].
  cbn [fst snd]. destruct (is_empty df) eqn:Hempty; [discriminate|].
  pose proof (supported_provider provider_name api_key (Some model)) as Hp.
  destruct (get_provider provider_name api_key (Some model)) as [e|llm] eqn:Hllm.
  { destruct e; discriminate. }
  destruct (supported provider_name); [|discriminate].
  unfold generate_sql, explain_results, bind, call_llm, ret. cbn [fst snd].
  destruct (complete llm question _ _) as [e|text] eqn:Htext; [discriminate|].
  destruct (run_query lib eval_mask df (_extract_sql text))
    as [results error] eqn:Hrun.
  destruct (truthy error) eqn:Hterr; [discriminate|].
  destruct (run_query_ok _ _ _ _ Hrun Hterr) as [-> Hsel].
  destruct (explain llm question (_extract_sql text) (to_string results))
    as [e|explanation] eqn:Hexpl; [discriminate|].
  intros [= <- <- <- <- <-]. cbn [fst snd].
  split; [reflexivity|]. split; [reflexivity|].
  exists df, llm, text, results. rewrite <- List.app_assoc.
  repeat split; try reflexivity; assumption.
Qed.

(** X26.  [/query] gives an answer only when all of this holds: the data
    loaded for the range are not empty, the provider is one of the three
    that [get_provider] knows, the model was asked once for a statement,
    what [_extract_sql] made of its text starts with [select] and ran
    without a message, and the explanation was asked for once, after that,
    for the rendering of the result. *)
Theorem query_answer_is_select (CONFIG : Config) (data : QueryRequest)
  (st st' : state) (q sql res expl : string) :
  query_ CONFIG data st = (inr (Answer q sql res expl), st') ->
  let provider_name := default (default_provider CONFIG) (q_provider data) in
  let model := default (default_model CONFIG) (q_model data) in
  q_question data = Some q
  /\ supported provider_name = true
  /\ exists bucket start_date end_date df llm text results,
       bucket_name CONFIG = Some bucket
       /\ date_range_of strptime now data = inr (start_date, end_date)
       /\ get_data_for_date_range (new_access client_list client_get bucket)
            lib start_date end_date None st.1 = (inr df, st'.1)
       /\ is_empty df = false
       /\ st'.2
          = st.2
            ++ [GenerateSql llm q (Schema.get_schema_from_data str_cell df)
                  (Sample.get_sample_data to_string df 5);
                ExplainResults llm q sql (to_string results)]
       /\ complete llm q (Schema.get_schema_from_data str_cell df)
            (Sample.get_sample_data to_string df 5) = inr text
       /\ sql = _extract_sql text
       /\ startswith "select" (lower (strip sql)) = true
       /\ run_query lib eval_mask df sql = (results, None)
       /\ res = to_json results
       /\ explain llm q sql (to_string results) = inr expl.
Proof.
  intros Hrun provider_name model. unfold query in Hrun.
  destruct (q_question data) as [question|]; [|discriminate].
  fold provider_name model in Hrun.
  destruct (bucket_name CONFIG) as [[|c b]|]; [discriminate| |discriminate].
  destruct (date_range_of strptime now data) as [e|[start_date end_date]];
    [destruct e; discriminate|].
  assert (exists key,
            answer_ question provider_name model (String c b)
              start_date end_date key st
            = (inr (Answer q sql res expl), st')) as [key Hanswer].
  { destruct (String.eqb (lower provider_name) "bedrock"); cbn [negb] in Hrun;
      [eauto|].
    destruct (truthy (api_keys CONFIG !! lower provider_name));
      cbn [negb] in Hrun; [eauto | discriminate]. }
  apply answer_gives_answer in Hanswer
    as (-> & Hs & df & llm & text & results & Hload & Hne & Hllm & Hcalls
        & Htext & Hsql & Hsel & Hq & Hres & Hexpl).
  split; [reflexivity|]. split; [exact Hs|].
  exists (String c b), start_date, end_date, df, llm, text, results.
  repeat split; assumption.
Qed.



End Handlers.

(** X22, at a bucket that is refused. *)
Lemma available_dates_outage_is_404_witness :
  (available_dates Examples.lib ApiExamples.client_list ApiExamples.client_get
     ApiExamples.strftime ApiExamples.cellar []).1
  = inr (Error 404 "No data available in S3 bucket").
Proof.
  apply (available_dates_outage_is_404 Examples.lib ApiExamples.client_list
           ApiExamples.client_get ApiExamples.strftime ApiExamples.cellar
           "cellar" []).
  - reflexivity.
  - discriminate.
  - left. eexists. reflexivity.
Defined.


(** X24, at a request for two days from a bucket that is refused. *)
Lemma query_outage_answers_404_witness :
  exists t',
    query Examples.lib ApiExamples.client_list ApiExamples.client_get
      Examples.str_cell ApiExamples.to_string ApiExamples.to_json
      Examples.eval_mask ApiExamples.strptime Examples.jan3
      ApiExamples.complete ApiExamples.explain ApiExamples.cellar
      (ApiExamples.request "all values" None) ([], [])
    = (inr (Error 404 "No data available for the specified date range"),
       (t', []))
    /\ fetched t' = fetched [].
Proof.
  apply (query_outage_answers_404 Examples.lib ApiExamples.client_list
           ApiExamples.client_get Examples.str_cell ApiExamples.to_string
           ApiExamples.to_json Examples.eval_mask ApiExamples.strptime
           Examples.jan3 ApiExamples.complete ApiExamples.explain
           ApiExamples.cellar (ApiExamples.request "all values" None)
           "all values" "cellar" Examples.jan2 Examples.jan3 [] []).
  - reflexivity.
  - reflexivity.
  - discriminate.
  - reflexivity.
  - left. reflexivity.
  - intros prefix. eexists. reflexivity.
Defined.

(** X25, at the provider name [Claude], under which a key is stored: the
    two files are fetched and the answer is that the provider is not
    supported. *)
Lemma query_unsupported_provider_witness :
  query Examples.lib ApiExamples.client_list ApiExamples.client_get
    Examples.str_cell ApiExamples.to_string ApiExamples.to_json
    Examples.eval_mask ApiExamples.strptime Examples.jan3
    ApiExamples.complete ApiExamples.explain ApiExamples.shop
    (ApiExamples.request "all values" (Some "Claude")) ([], [])
  = (inr (Error 400 "Unsupported provider: Claude"),
     ([ListObjects "csv-data/year=2024/month=01/day=02/";
       GetObject "csv-data/year=2024/month=01/day=02/a.csv.gz";
       ListObjects "csv-data/year=2024/month=01/day=03/";
       GetObject "csv-data/year=2024/month=01/day=03/a.csv.gz"], [])).
Proof.
  rewrite (query_unsupported_provider Examples.lib ApiExamples.client_list
             ApiExamples.client_get Examples.str_cell ApiExamples.to_string
             ApiExamples.to_json Examples.eval_mask ApiExamples.strptime
             Examples.jan3 ApiExamples.complete ApiExamples.explain
             ApiExamples.shop
             (ApiExamples.request "all values" (Some "Claude"))
             "all values" "shop" Examples.jan2 Examples.jan3 ([], [])).
  - vm_compute. reflexivity.
  - reflexivity.
  - reflexivity.
  - discriminate.
  - reflexivity.
  - reflexivity.
Defined.

(** X26, at a request that is answered. *)
Lemma query_answer_is_select_witness :
  exists (st' : state) (q sql res expl : string),
    query Examples.lib ApiExamples.client_list ApiExamples.client_get
      Examples.str_cell ApiExamples.to_string ApiExamples.to_json
      Examples.eval_mask ApiExamples.strptime Examples.jan3
      ApiExamples.complete ApiExamples.explain ApiExamples.shop
      (ApiExamples.request "all values" None) ([], [])
    = (inr (Answer q sql res expl), st')
    /\ sql = "SELECT value"
    /\ startswith "select" (lower (strip sql)) = true
    /\ length st'.2 = 2%nat.
Proof.
  eexists _, _, _, _, _. split; [vm_compute; reflexivity|].
  destruct (query_answer_is_select Examples.lib ApiExamples.client_list
              ApiExamples.client_get Examples.str_cell ApiExamples.to_string
              ApiExamples.to_json Examples.eval_mask ApiExamples.strptime
              Examples.jan3 ApiExamples.complete ApiExamples.explain
              ApiExamples.shop (ApiExamples.request "all values" None)
              ([], []) _ _ _ _ _ ltac:(vm_compute; reflexivity))
    as (_ & _ & bucket & s & e & df & llm & text & results & _ & _ & _ & _
        & Hcalls & _ & _ & Hsel & _).
  split; [reflexivity|]. split; [exact Hsel|].
  cbn [snd] in *. rewrite Hcalls. reflexivity.
Defined.


End ApiFacts.
